(** * QuizMaster: scheduled reminders, monthly reports and exports

    A shallow embedding of the background jobs of [tasks.py] and of the
    rows of [models.py] they read, followed by the properties of the
    reporting and notification pipeline.

    Conventions of the embedding:
    - a table is the list of its rows in the order the engine scans them;
    - Python integers are [Z]; a nullable column the code tests for
      [None] is an [option];
    - Python floats are binary64 ([PrimFloat]); the quotient of two
      integers is the correctly rounded one ([SpecFloat]);
    - exceptions, the clock and the outside world (SMTP, HTTP, Twilio,
      the file system) go through the job monad [M] defined below. *)

From Stdlib Require Import ZArith String Ascii List Bool Lia Permutation Sorted.
From Stdlib Require Import Floats.PrimFloat Floats.SpecFloat Floats.FloatOps.
From stdpp Require Import gmap strings pretty.
Import ListNotations.
Set Warnings "-register-all".
Open Scope string_scope.
Open Scope Z_scope.

(* ================================================================== *)
(** * Part I: definitions *)
(* ================================================================== *)

(** ** Python values *)

(** An exception: its class and [str(e)]. *)
Record exn := Exn { exn_class : string; exn_msg : string }.

Definition ValueError (msg : string) : exn := Exn "ValueError" msg.
Definition AttributeError (attr : string) : exn :=
  Exn "AttributeError" ("'NoneType' object has no attribute '" ++ attr ++ "'").
Definition ZeroDivisionError : exn := Exn "ZeroDivisionError" "division by zero".
Definition OverflowError : exn :=
  Exn "OverflowError" "integer division result too large for a float".

(** A number as the templates and the CSV writer receive it: the guard
    [... if total > 0 else 0] yields a float on one side and the integer
    [0] on the other. *)
Inductive pynum :=
| PInt (z : Z)
| PFloat (f : float).

(** An integer as the exact operand of a float operation. *)
Definition Z2SF (z : Z) : spec_float :=
  match z with
  | Z0 => S754_zero false
  | Zpos p => S754_finite false p 0
  | Zneg p => S754_finite true p 0
  end.

(** The least magnitude that rounds beyond the largest float: halfway
    between [2^1024 - 2^971] and [2^1024]. *)
Definition float_overflow_bound : Z := 2 ^ 1024 - 2 ^ 970.

(** [a / b] on two integers: true division. The result is the float
    nearest to the exact quotient (ties to even), whatever the size of
    the operands; [ZeroDivisionError] on [b = 0], [OverflowError] when
    the quotient rounds beyond the largest float. *)
Definition truediv (a b : Z) : exn + float :=
  if b =? 0 then inl ZeroDivisionError
  else if float_overflow_bound * Z.abs b <=? Z.abs a then inl OverflowError
  else inr (SF2Prim (SFdiv prec emax (Z2SF a) (Z2SF b))).

(** [x * 100] with [x] a float. *)
Definition times100 (x : float) : float := PrimFloat.mul x 100%float.

(** [p >= 60] on a number. *)
Definition pynum_ge60 (p : pynum) : bool :=
  match p with
  | PInt z => 60 <=? z
  | PFloat f => PrimFloat.leb 60%float f
  end.

(** Truthiness of a nullable string: [None] and [''] are falsy. *)
Definition truthy_str (s : option string) : bool :=
  match s with
  | Some s => negb (String.eqb s "")
  | None => false
  end.

(** [s or d] on a nullable string. *)
Definition or_str (s : option string) (d : string) : string :=
  match s with
  | Some s => if String.eqb s "" then d else s
  | None => d
  end.

(** [n or d] on a nullable integer: [None] and [0] are falsy. *)
Definition or_int (n : option Z) (d : Z) : Z :=
  match n with
  | Some n => if n =? 0 then d else n
  | None => d
  end.

Definition nl : string := String (ascii_of_nat 10) "".

(** ["\n".join(lines)]. *)
Fixpoint join_lines (lines : list string) : string :=
  match lines with
  | [] => ""
  | [l] => l
  | l :: rest => l ++ nl ++ join_lines rest
  end.

(** ** Dates *)

Record date := mk_date { year : Z; month : Z; day : Z }.

Record datetime := mk_datetime {
  dt_date : date; hour : Z; minute : Z; second : Z; microsecond : Z }.

Definition is_leap (y : Z) : bool :=
  (y mod 4 =? 0) && (negb (y mod 100 =? 0) || (y mod 400 =? 0)).

Definition days_in_month (y m : Z) : Z :=
  if m =? 2 then (if is_leap y then 29 else 28)
  else if (m =? 4) || (m =? 6) || (m =? 9) || (m =? 11) then 30
  else 31.

Definition valid_date (d : date) : bool :=
  (1 <=? year d) && (year d <=? 9999) &&
  (1 <=? month d) && (month d <=? 12) &&
  (1 <=? day d) && (day d <=? days_in_month (year d) (month d)).

(** The constructor [date(y, m, d)], which checks its arguments. *)
Definition date_new (y m d : Z) : exn + date :=
  if negb ((1 <=? y) && (y <=? 9999)) then
    inl (ValueError ("year " ++ pretty y ++ " is out of range"))
  else if negb ((1 <=? m) && (m <=? 12)) then
    inl (ValueError "month must be in 1..12")
  else if negb ((1 <=? d) && (d <=? days_in_month y m)) then
    inl (ValueError "day is out of range for month")
  else inr (mk_date y m d).

(** Dates compare by year, then month, then day. *)
Definition date_compare (a b : date) : comparison :=
  match year a ?= year b with
  | Eq => match month a ?= month b with
          | Eq => day a ?= day b
          | c => c
          end
  | c => c
  end.

Definition date_leb (a b : date) : bool :=
  match date_compare a b with Gt => false | _ => true end.
Definition date_ltb (a b : date) : bool :=
  match date_compare a b with Lt => true | _ => false end.

Definition time_compare (a b : datetime) : comparison :=
  match hour a ?= hour b with
  | Eq => match minute a ?= minute b with
          | Eq => match second a ?= second b with
                  | Eq => microsecond a ?= microsecond b
                  | c => c
                  end
          | c => c
          end
  | c => c
  end.

Definition datetime_compare (a b : datetime) : comparison :=
  match date_compare (dt_date a) (dt_date b) with
  | Eq => time_compare a b
  | c => c
  end.

Definition datetime_leb (a b : datetime) : bool :=
  match datetime_compare a b with Gt => false | _ => true end.
Definition datetime_ltb (a b : datetime) : bool :=
  match datetime_compare a b with Lt => true | _ => false end.

(** A [date] bound against a [DateTime] column stands for its midnight. *)
Definition at_midnight (d : date) : datetime := mk_datetime d 0 0 0 0.

(** The day before [d]. *)
Definition prev_day (d : date) : date :=
  if 1 <? day d then mk_date (year d) (month d) (day d - 1)
  else if 1 <? month d then
    mk_date (year d) (month d - 1) (days_in_month (year d) (month d - 1))
  else mk_date (year d - 1) 12 31.

(** [t - timedelta(days=n)], which raises below year 1. *)
Definition minus_days (n : nat) (t : datetime) : exn + datetime :=
  let d := Nat.iter n prev_day (dt_date t) in
  if 1 <=? year d then
    inr (mk_datetime d (hour t) (minute t) (second t) (microsecond t))
  else inl (Exn "OverflowError" "date value out of range").

(** Zero-padded two-digit field of [strftime]. *)
Definition pad2 (z : Z) : string :=
  if z <? 10 then "0" ++ pretty z else pretty z.

Definition month_name (m : Z) : string :=
  nth (Z.to_nat (m - 1))
      ["January"; "February"; "March"; "April"; "May"; "June"; "July";
       "August"; "September"; "October"; "November"; "December"] "".

(** [strftime] for the five formats the jobs use (years of four digits). *)
Definition strftime_Ymd (d : date) : string :=
  pretty (year d) ++ "-" ++ pad2 (month d) ++ "-" ++ pad2 (day d).
Definition strftime_BY (d : date) : string :=
  month_name (month d) ++ " " ++ pretty (year d).
Definition strftime_YmdHM (t : datetime) : string :=
  strftime_Ymd (dt_date t) ++ " " ++ pad2 (hour t) ++ ":" ++ pad2 (minute t).
Definition strftime_YmdHMS (t : datetime) : string :=
  strftime_YmdHM t ++ ":" ++ pad2 (second t).
Definition strftime_stamp (t : datetime) : string :=
  pretty (year (dt_date t)) ++ pad2 (month (dt_date t)) ++ pad2 (day (dt_date t))
  ++ "_" ++ pad2 (hour t) ++ pad2 (minute t) ++ pad2 (second t).

(** ** The rows of [models.py] *)

(** Each record keeps the columns the jobs read. The columns the
    application fills on every row ([role], [is_active], [score],
    [total_questions], [attempt_date]) are taken as present; those the
    jobs test for [None] are options. The database is SQLite
    ([config.py], line 7): an INTEGER column holds a signed 64-bit
    integer, and a table has fewer than [2^63] rows, one for each rowid. *)

Definition in_int64 (z : Z) : bool := (- 2 ^ 63 <=? z) && (z <? 2 ^ 63).

Record int64 := mk_int64 { int64_val : Z; int64_range : in_int64 int64_val = true }.

Record User := {
  u_id : Z;
  username : string;            (* the e-mail address *)
  full_name : string;
  role : string;                (* 'admin' or 'user' *)
  last_login : option datetime }.

Record Subject := { sub_id : Z; sub_name : string }.

Record Chapter := { ch_id : Z; ch_subject_id : Z; ch_name : string }.

Record Quiz := {
  q_id : Z;
  q_chapter_id : Z;
  title : string;
  date_of_quiz : date;
  time_duration : Z;
  is_active : bool }.

Record Score := {
  s_id : Z;
  s_quiz_id : Z;
  s_user_id : Z;
  score_col : int64;
  total_questions_col : int64;
  attempt_date : datetime;
  time_taken : option Z }.

(** The two columns the jobs compute with, as Python integers. *)
Definition score (s : Score) : Z := int64_val (score_col s).
Definition total_questions (s : Score) : Z := int64_val (total_questions_col s).

Record UserPreference := {
  p_id : Z;
  p_user_id : Z;
  notification_type : option string;   (* 'email', 'sms', 'gchat' *)
  reminder_time : option Z;            (* hour of the day *)
  webhook_url : option string;
  phone_number : option string;
  receive_daily_reminders : bool;
  receive_monthly_reports : bool }.

Record DB := {
  users : list User;
  subjects : list Subject;
  chapters : list Chapter;
  quizzes : list Quiz;
  scores : list Score;
  user_preferences : list UserPreference;
  scores_rowids : (Z.of_nat (length scores) <? 2 ^ 63) = true }.

(** [Model.query.get(id)]: the row with that primary key, if any. *)
Definition User_get (db : DB) (id : Z) : option User :=
  find (fun u => u_id u =? id) (users db).
Definition Quiz_get (db : DB) (id : Z) : option Quiz :=
  find (fun q => q_id q =? id) (quizzes db).
Definition Chapter_get (db : DB) (id : Z) : option Chapter :=
  find (fun c => ch_id c =? id) (chapters db).
Definition Subject_get (db : DB) (id : Z) : option Subject :=
  find (fun s => sub_id s =? id) (subjects db).

(** The guarded expression [(num / den * 100) if den > 0 else 0], written
    out at [models.py:172] and [tasks.py:244], [529] and [538]. *)
Definition percentage_expr (num den : Z) : exn + pynum :=
  if 0 <? den then
    match truediv num den with
    | inl e => inl e
    | inr f => inr (PFloat (times100 f))
    end
  else inr (PInt 0).


(** ** What the jobs hand to the outside world *)

(** One entry of [attempt_details] in the monthly report. *)
Record attempt_detail := {
  ad_quiz_title : string;
  ad_subject : string;
  ad_chapter : string;
  ad_score : Z;
  ad_total : Z;
  ad_percentage : pynum;
  ad_date : string }.

(** One entry of [user_rankings]. *)
Record ranking := { rank : Z; total : Z }.

(** A call of [render_template]: the template and its context. *)
Inductive template :=
| daily_reminder_html (user : User) (new_quizzes : list Quiz) (today : date)
| monthly_report_html (user : User) (month_label : string)
    (total_attempts : Z) (avg_percentage : pynum)
    (attempts : list attempt_detail) (rankings : gmap string ranking).

Record Message := {
  subject : string;
  recipients : list string;
  html : template;
  sender : string }.

(** The JSON bodies posted to the chat webhook. *)
Inductive json :=
| JStr (s : string)
| JArr (items : list json)
| JObj (fields : list (string * json)).

(** A cell handed to [csv.writer]; [CPercent p] is [f"{p:.2f}%"]. *)
Inductive cell :=
| CInt (z : Z)
| CStr (s : string)
| CNone
| CPercent (p : pynum).

(** The calls a job makes on its environment, in order. *)
Inductive event :=
| MailSend (m : Message)
| HttpPost (url : string) (payload : json)
| TwilioCreate (body from to : string)
| LogError (msg : string)
| LogWarning (msg : string)
| UpdateState (state : string) (error : string)
| FileOpenW (path : string)
| FileWrite (path : string) (rows : list (list cell)).

(** The environment: how the [k]-th call on it answers, the engine's
    ordering of an [ORDER BY date_of_quiz], and the application
    configuration. *)
Record World := {
  clock : nat -> datetime;
  smtp : nat -> Message -> option exn;
  http : nat -> string -> json -> exn + Z;
  twilio : nat -> string -> string -> string -> option exn;
  fs_open : nat -> string -> option exn;
  fs_write : nat -> string -> option exn;
  order_by_date_of_quiz : list Quiz -> list Quiz;
  MAIL_DEFAULT_SENDER : string;
  APP_URL : option string;
  TWILIO_ACCOUNT_SID : option string;
  TWILIO_AUTH_TOKEN : option string;
  TWILIO_PHONE_NUMBER : option string }.

(** What the engine must do for [ORDER BY date_of_quiz]: return the same
    rows, by ascending date. The order of rows of one date is its own. *)
Definition date_of_quiz_le (a b : Quiz) : Prop :=
  date_leb (date_of_quiz a) (date_of_quiz b) = true.

Definition engine_sorts (W : World) : Prop :=
  forall l : list Quiz,
    Permutation l (order_by_date_of_quiz W l) /\
    StronglySorted date_of_quiz_le (order_by_date_of_quiz W l).

(** ** The job monad: exceptions, a call counter, the calls made *)

Definition M (A : Type) : Type := nat -> (exn + A) * nat * list event.

Definition ret {A} (a : A) : M A := fun k => (inr a, k, []).

Definition bind {A B} (m : M A) (f : A -> M B) : M B := fun k =>
  match m k with
  | (inl e, k1, ev) => (inl e, k1, ev)
  | (inr a, k1, ev) =>
      match f a k1 with
      | (r, k2, ev') => (r, k2, (ev ++ ev')%list)
      end
  end.

Definition raise {A} (e : exn) : M A := fun k => (inl e, k, []).

(** [try: m  except Exception as e: h e]. *)
Definition try_except {A} (m : M A) (h : exn -> M A) : M A := fun k =>
  match m k with
  | (inl e, k1, ev) =>
      match h e k1 with
      | (r, k2, ev') => (r, k2, (ev ++ ev')%list)
      end
  | r => r
  end.

Definition lift {A} (r : exn + A) : M A := fun k => (r, k, []).

Definition emit (e : event) : M unit := fun k => (inr tt, k, [e]).

(** A call on the environment that may raise: recorded, answered by the
    world at the current count. *)
Definition call (e : event) (answer : nat -> option exn) : M unit := fun k =>
  (match answer k with Some x => inl x | None => inr tt end, S k, [e]).

Notation "x <- m ;; f" := (bind m (fun x => f))
  (at level 100, m at next level, right associativity).
Notation "m ;;; f" := (bind m (fun _ => f))
  (at level 100, right associativity).

(** [for x in l: acc = body x acc]. *)
Fixpoint for_each {A S} (l : list A) (body : A -> S -> M S) (acc : S) : M S :=
  match l with
  | [] => ret acc
  | x :: rest => acc' <- body x acc ;; for_each rest body acc'
  end.

(** Results read off a run. *)
Definition outcome {A} (r : (exn + A) * nat * list event) : exn + A := fst (fst r).
Definition calls {A} (r : (exn + A) * nat * list event) : list event := snd r.

Section Jobs.

Variable W : World.

Definition datetime_now : M datetime := fun k => (inr (clock W k), S k, []).

Definition mail_send (msg : Message) : M unit :=
  call (MailSend msg) (fun k => smtp W k msg).

Definition requests_post (url : string) (payload : json) : M Z := fun k =>
  (http W k url payload, S k, [HttpPost url payload]).

Definition logger_error (msg : string) : M unit := emit (LogError msg).

(** [current_app] is bound only while an application context is pushed.
    Once [with app.app_context()] is left, reading [current_app.logger]
    raises Flask's [RuntimeError] (its message goes on with advice on
    how to push a context) before anything is logged. *)
Definition working_outside_of_application_context : exn :=
  Exn "RuntimeError" "Working outside of application context.".

Definition logger_error_outside_context (msg : string) : M unit :=
  raise working_outside_of_application_context.

Definition logger_warning (msg : string) : M unit := emit (LogWarning msg).

(** ** Notification channels *)

Definition truthy_list {A} (l : option (list A)) : bool :=
  match l with Some (_ :: _) => true | _ => false end.

Definition send_gchat_webhook (webhook_url : option string) (message_text : string)
    (title : option string) (sections : option (list json)) : M bool :=
  if negb (truthy_str webhook_url) then ret false
  else
    let url := or_str webhook_url "" in
    let payload := JObj [("text", JStr message_text)] in
    let payload :=
      if truthy_str title || truthy_list sections then
        let card :=
          JObj [("header", JObj [("title", JStr (or_str title "Quiz Master Notification"))]);
                ("sections", JArr (default [] sections))] in
        JObj [("cards", JArr [card])]
      else payload in
    try_except
      (response <- requests_post url payload ;;
       ret (response =? 200))
      (fun e =>
         logger_error ("Google Chat webhook error: " ++ exn_msg e) ;;;
         ret false).

Definition send_sms_notification (phone_number : string) (message : string) : M bool :=
  if negb (truthy_str (TWILIO_ACCOUNT_SID W) && truthy_str (TWILIO_AUTH_TOKEN W)
           && truthy_str (TWILIO_PHONE_NUMBER W)) then
    logger_warning "Twilio credentials not configured" ;;;
    ret false
  else
    try_except
      (let from_ := or_str (TWILIO_PHONE_NUMBER W) "" in
       call (TwilioCreate message from_ phone_number)
            (fun k => twilio W k message from_ phone_number) ;;;
       ret true)
      (fun e =>
         logger_error ("Twilio SMS error: " ++ exn_msg e) ;;;
         ret false).

(** ** The daily reminder job *)

(** [enumerate(l, i)]. *)
Fixpoint enumerate {A} (i : Z) (l : list A) : list (Z * A) :=
  match l with
  | [] => []
  | x :: rest => (i, x) :: enumerate (i + 1) rest
  end.

Definition is_empty {A} (l : list A) : bool :=
  match l with [] => true | _ => false end.

(** Lines 375-378. *)
Definition upcoming_quizzes_query (db : DB) (today : date) : list Quiz :=
  firstn 5 (order_by_date_of_quiz W
    (List.filter (fun q => is_active q && date_leb today (date_of_quiz q))
                 (quizzes db))).

(** Lines 382-385. *)
Definition inactive_users_query (db : DB) (recent_date : datetime) : list User :=
  List.filter
    (fun u => String.eqb (role u) "user" &&
              match last_login u with
              | None => true
              | Some t => datetime_ltb t recent_date
              end)
    (users db).

(** Lines 393-397. *)
Definition new_quizzes_for (db : DB) (upcoming_quizzes : list Quiz) (user : User)
  : list Quiz :=
  let user_quiz_ids :=
    map s_quiz_id (List.filter (fun s => s_user_id s =? u_id user) (scores db)) in
  List.filter (fun q => negb (existsb (Z.eqb (q_id q)) user_quiz_ids)) upcoming_quizzes.

(** Line 403. *)
Definition user_pref_of (db : DB) (user : User) : option UserPreference :=
  find (fun p => p_user_id p =? u_id user) (user_preferences db).

(** Lines 406-411. *)
Definition resolve_notification_type (user_pref : option UserPreference) : string :=
  match user_pref with
  | Some p => or_str (notification_type p) "email"
  | None => "email"
  end.

Definition resolve_reminder_time (user_pref : option UserPreference) : Z :=
  match user_pref with
  | Some p => or_int (reminder_time p) 18
  | None => 18
  end.

Definition quiz_list_of (new_quizzes : list Quiz) : string :=
  join_lines
    (map (fun '(i, quiz) =>
            pretty i ++ ". " ++ title quiz ++ " (" ++ strftime_Ymd (date_of_quiz quiz) ++ ")")
         (enumerate 1 new_quizzes)).

Definition len {A} (l : list A) : Z := Z.of_nat (length l).

(** Lines 426-483: the dispatch through the resolved channel. *)
Definition dispatch_reminder (today : date) (user : User)
    (user_pref : option UserPreference) (new_quizzes : list Quiz)
    (reminders_sent : Z) : M Z :=
  let notification_type := resolve_notification_type user_pref in
  let quiz_list := quiz_list_of new_quizzes in
  let sms_branch :=
    if String.eqb notification_type "sms" then
      match user_pref with
      | None => raise (AttributeError "phone_number")
      | Some p =>
          if truthy_str (phone_number p) then
            let sms_text :=
              "Hi " ++ full_name user ++ ", you have " ++ pretty (len new_quizzes)
              ++ " new quizzes available on Quiz Master:" ++ nl ++ nl ++ quiz_list
              ++ nl ++ nl ++ "Login to attempt them!" in
            success <- send_sms_notification (or_str (phone_number p) "") sms_text ;;
            if success then ret (reminders_sent + 1) else ret reminders_sent
          else ret reminders_sent
      end
    else ret reminders_sent in
  if String.eqb notification_type "email" then
    let msg := {| subject := "Quiz Master - Daily Reminder";
                  recipients := [username user];
                  html := daily_reminder_html user new_quizzes today;
                  sender := MAIL_DEFAULT_SENDER W |} in
    mail_send msg ;;;
    ret (reminders_sent + 1)
  else if String.eqb notification_type "gchat" then
    match user_pref with
    | None => raise (AttributeError "webhook_url")
    | Some p =>
        if truthy_str (webhook_url p) then
          let sections :=
            [ JObj [("header", JStr "New Quizzes Available");
                    ("widgets", JArr [JObj [("textParagraph",
                                             JObj [("text", JStr quiz_list)])]])];
              JObj [("widgets", JArr [JObj [("buttons", JArr [JObj [("textButton",
                      JObj [("text", JStr "Go to Quiz Master");
                            ("onClick", JObj [("openLink",
                               JObj [("url", JStr (default "https://quizmaster.com"
                                                           (APP_URL W)))])])])]])]])] ] in
          success <- send_gchat_webhook (webhook_url p)
                       ("Hi " ++ full_name user ++ ", you have "
                        ++ pretty (len new_quizzes) ++ " new quizzes available!")
                       (Some "Quiz Master Daily Reminder") (Some sections) ;;
          if success then ret (reminders_sent + 1) else ret reminders_sent
        else sms_branch
    end
  else sms_branch.

(** Lines 390-483: the body of the loop over the inactive users. *)
Definition reminder_step (db : DB) (today : date) (upcoming_quizzes : list Quiz)
    (user : User) (reminders_sent : Z) : M Z :=
  let new_quizzes := new_quizzes_for db upcoming_quizzes user in
  if is_empty new_quizzes then ret reminders_sent
  else
    let user_pref := user_pref_of db user in
    let reminder_time := resolve_reminder_time user_pref in
    now <- datetime_now ;;
    let current_hour := hour now in
    if negb (current_hour =? reminder_time) then ret reminders_sent
    else dispatch_reminder today user user_pref new_quizzes reminders_sent.

(** Lines 368-485: the block run under [with app.app_context()]. *)
Definition daily_reminders_block (db : DB) : M string :=
  t <- datetime_now ;;
  let today := dt_date t in
  let upcoming_quizzes := upcoming_quizzes_query db today in
  now <- datetime_now ;;
  recent_date <- lift (minus_days 3 now) ;;
  let inactive_users := inactive_users_query db recent_date in
  reminders_sent <- for_each inactive_users (reminder_step db today upcoming_quizzes) 0 ;;
  ret ("Daily reminders sent to " ++ pretty reminders_sent ++ " users").

(** Lines 363-489. The [except] clause runs once the [with] block, and
    with it the application context, has been left. *)
Definition send_daily_reminders (db : DB) : M string :=
  try_except (daily_reminders_block db)
    (fun e =>
       logger_error_outside_context ("Daily reminder error: " ++ exn_msg e) ;;;
       raise e).

(** ** The monthly report job *)

(** Lines 504-508: [first_day] and [last_month]. *)
Definition month_bounds (today : date) : exn + (date * date) :=
  match date_new (year today) (month today) 1 with
  | inl e => inl e
  | inr first_day =>
      match (if month today =? 1 then date_new (year today - 1) 12 1
             else date_new (year today) (month today - 1) 1) with
      | inl e => inl e
      | inr last_month => inr (last_month, first_day)
      end
  end.

(** Lines 516-520. *)
Definition monthly_attempts (db : DB) (user : User) (last_month first_day : date)
  : list Score :=
  List.filter
    (fun s => (s_user_id s =? u_id user)
              && datetime_leb (at_midnight last_month) (attempt_date s)
              && datetime_ltb (attempt_date s) (at_midnight first_day))
    (scores db).

(** [sum(...)] over integers. *)
Definition py_sum (l : list Z) : Z := fold_left Z.add l 0.

(** Line 529. *)
Definition avg_percentage_of (attempts : list Score) : exn + pynum :=
  let total_score := py_sum (map score attempts) in
  let total_questions := py_sum (map total_questions attempts) in
  percentage_expr total_score total_questions.

(** Lines 534-548: one entry of [attempt_details]. *)
Definition attempt_detail_of (db : DB) (attempt : Score) : exn + attempt_detail :=
  match Quiz_get db (s_quiz_id attempt) with
  | None => inl (AttributeError "chapter_id")
  | Some quiz =>
      match Chapter_get db (q_chapter_id quiz) with
      | None => inl (AttributeError "subject_id")
      | Some chapter =>
          match percentage_expr (score attempt) (total_questions attempt) with
          | inl e => inl e
          | inr percentage =>
              match Subject_get db (ch_subject_id chapter) with
              | None => inl (AttributeError "name")
              | Some subject =>
                  inr {| ad_quiz_title := title quiz;
                         ad_subject := sub_name subject;
                         ad_chapter := ch_name chapter;
                         ad_score := score attempt;
                         ad_total := total_questions attempt;
                         ad_percentage := percentage;
                         ad_date := strftime_YmdHM (attempt_date attempt) |}
              end
          end
      end
  end.

(** [for x in l: ...] over a fallible body. *)
Fixpoint mapE {A B} (f : A -> exn + B) (l : list A) : exn + list B :=
  match l with
  | [] => inr []
  | x :: rest =>
      match f x with
      | inl e => inl e
      | inr y =>
          match mapE f rest with
          | inl e => inl e
          | inr ys => inr (y :: ys)
          end
      end
  end.

(** Lines 555-560: the rank query, [count(Score.id) + 1 ... .scalar() or 1]. *)
Definition higher_scores (db : DB) (quiz_id : Z) (s : Z) : list Score :=
  List.filter (fun r => (s_quiz_id r =? quiz_id) && (s <? score r)) (scores db).

Definition rank_for_attempt (db : DB) (quiz_id : Z) (s : Z) : Z :=
  or_int (Some (len (higher_scores db quiz_id s) + 1)) 1.

(** Line 562. *)
Definition total_attempts_for_quiz (db : DB) (quiz_id : Z) : Z :=
  len (List.filter (fun r => s_quiz_id r =? quiz_id) (scores db)).

(** Lines 551-569: the loop that fills [user_rankings]. *)
Fixpoint user_rankings_of (db : DB) (attempts : list Score)
    (user_rankings : gmap string ranking) : exn + gmap string ranking :=
  match attempts with
  | [] => inr user_rankings
  | attempt :: rest =>
      let rank := rank_for_attempt db (s_quiz_id attempt) (score attempt) in
      let total_attempts_for_quiz := total_attempts_for_quiz db (s_quiz_id attempt) in
      match Quiz_get db (s_quiz_id attempt) with
      | None => inl (AttributeError "title")
      | Some quiz =>
          user_rankings_of db rest
            (<[title quiz := {| rank := rank; total := total_attempts_for_quiz |}]>
               user_rankings)
      end
  end.

(** Lines 514-589: the body of the loop over the users. *)
Definition report_step (db : DB) (last_month first_day : date)
    (user : User) (_ : unit) : M unit :=
  let attempts := monthly_attempts db user last_month first_day in
  if is_empty attempts then ret tt
  else
    let total_attempts := len attempts in
    avg_percentage <- lift (avg_percentage_of attempts) ;;
    attempt_details <- lift (mapE (attempt_detail_of db) attempts) ;;
    user_rankings <- lift (user_rankings_of db attempts ∅) ;;
    let msg :=
      {| subject := "Quiz Master - Monthly Activity Report ("
                    ++ strftime_BY last_month ++ ")";
         recipients := [username user];
         html := monthly_report_html user (strftime_BY last_month) total_attempts
                   avg_percentage attempt_details user_rankings;
         sender := MAIL_DEFAULT_SENDER W |} in
    mail_send msg.

Definition report_users (db : DB) : list User :=
  List.filter (fun u => String.eqb (role u) "user") (users db).

(** Lines 497-591: the block run under [with app.app_context()]. *)
Definition monthly_reports_block (db : DB) : M string :=
  t <- datetime_now ;;
  let today := dt_date t in
  bounds <- lift (month_bounds today) ;;
  let '(last_month, first_day) := bounds in
  let users := report_users db in
  for_each users (report_step db last_month first_day) tt ;;;
  ret ("Monthly reports sent to " ++ pretty (len users) ++ " users").

(** Lines 493-596. As in the daily job, the [except] clause runs outside
    the application context. *)
Definition send_monthly_reports (db : DB) : M string :=
  try_except (monthly_reports_block db)
    (fun e =>
       logger_error_outside_context ("Monthly report error: " ++ exn_msg e) ;;;
       raise e).

(** ** The per-user attempts export *)

Record download := { filename : string; filepath : string; download_url : string }.

Definition export_header : list cell :=
  map CStr ["Quiz ID"; "Quiz Title"; "Subject"; "Chapter"; "Date Attempted";
            "Time Taken (seconds)"; "Score"; "Total Questions"; "Percentage";
            "Pass/Fail"].

(** Lines 240-257: the row of one attempt. *)
Definition export_row (db : DB) (attempt : Score) : exn + list cell :=
  match Quiz_get db (s_quiz_id attempt) with
  | None => inl (AttributeError "chapter_id")
  | Some quiz =>
      match Chapter_get db (q_chapter_id quiz) with
      | None => inl (AttributeError "subject_id")
      | Some chapter =>
          match percentage_expr (score attempt) (total_questions attempt) with
          | inl e => inl e
          | inr percentage =>
              match Subject_get db (ch_subject_id chapter) with
              | None => inl (AttributeError "name")
              | Some subject =>
                  inr [ CInt (q_id quiz); CStr (title quiz); CStr (sub_name subject);
                        CStr (ch_name chapter);
                        CStr (strftime_YmdHMS (attempt_date attempt));
                        match time_taken attempt with Some t => CInt t | None => CNone end;
                        CInt (score attempt); CInt (total_questions attempt);
                        CPercent percentage;
                        CStr (if pynum_ge60 percentage then "Pass" else "Fail") ]
              end
          end
      end
  end.

Definition user_attempts (db : DB) (user_id : Z) : list Score :=
  List.filter (fun s => s_user_id s =? user_id) (scores db).

Definition not_found_message (user_id : Z) : string :=
  "User with ID " ++ pretty user_id ++ " not found".

Definition export_user_attempts_csv (db : DB) (user_id : Z) : M download :=
  try_except
    (match User_get db user_id with
     | None => raise (ValueError (not_found_message user_id))
     | Some user =>
         let attempts := user_attempts db user_id in
         rows <- lift (mapE (export_row db) attempts) ;;
         let csv_content := export_header :: rows in
         now <- datetime_now ;;
         let filename := "user_" ++ pretty user_id ++ "_attempts_"
                         ++ strftime_stamp now ++ ".csv" in
         let filepath := "/tmp/" ++ filename in
         call (FileOpenW filepath) (fun k => fs_open W k filepath) ;;;
         call (FileWrite filepath csv_content) (fun k => fs_write W k filepath) ;;;
         ret {| filename := filename;
                filepath := filepath;
                download_url := "/api/user/export/download/" ++ filename |}
     end)
    (fun e =>
       emit (UpdateState "FAILURE" (exn_msg e)) ;;;
       raise e).

End Jobs.

(** ** The engine and a sample database *)

(** Insertion sort on [date_of_quiz]; [before x y] decides whether a new
    row [x] goes in front of [y]. *)
Fixpoint insert_quiz (before : Quiz -> Quiz -> bool) (x : Quiz) (l : list Quiz)
  : list Quiz :=
  match l with
  | [] => [x]
  | y :: rest => if before x y then x :: y :: rest else y :: insert_quiz before x rest
  end.

Definition sort_quizzes (before : Quiz -> Quiz -> bool) (l : list Quiz) : list Quiz :=
  fold_right (insert_quiz before) [] l.

(** The sorter of SQLite, the engine [config.py] line 7 names: rows of
    one date come out in the order they were scanned. *)
Definition stable_order : list Quiz -> list Quiz :=
  sort_quizzes (fun x y => date_leb (date_of_quiz x) (date_of_quiz y)).

(** A world whose clock stands at [t] and where every transport works. *)
Definition calm_world (t : datetime) (order : list Quiz -> list Quiz) : World :=
  {| clock := fun _ => t;
     smtp := fun _ _ => None;
     http := fun _ _ _ => inr 200;
     twilio := fun _ _ _ _ => None;
     fs_open := fun _ _ => None;
     fs_write := fun _ _ => None;
     order_by_date_of_quiz := order;
     MAIL_DEFAULT_SENDER := "noreply@quizmaster.com";
     APP_URL := Some "http://localhost:5000";
     TWILIO_ACCOUNT_SID := None;
     TWILIO_AUTH_TOKEN := None;
     TWILIO_PHONE_NUMBER := None |}.

(** The same world with a webhook endpoint that always answers [answer]. *)
Definition with_http (W : World) (answer : exn + Z) : World :=
  {| clock := clock W; smtp := smtp W; http := fun _ _ _ => answer;
     twilio := twilio W; fs_open := fs_open W; fs_write := fs_write W;
     order_by_date_of_quiz := order_by_date_of_quiz W;
     MAIL_DEFAULT_SENDER := MAIL_DEFAULT_SENDER W; APP_URL := APP_URL W;
     TWILIO_ACCOUNT_SID := TWILIO_ACCOUNT_SID W;
     TWILIO_AUTH_TOKEN := TWILIO_AUTH_TOKEN W;
     TWILIO_PHONE_NUMBER := TWILIO_PHONE_NUMBER W |}.

Definition connection_refused : exn := Exn "ConnectionError" "connection refused".

Definition noon (y m d : Z) : datetime := mk_datetime (mk_date y m d) 12 0 0 0.
Definition at_hour (y m d h : Z) : datetime := mk_datetime (mk_date y m d) h 0 0 0.

Definition alice : User :=
  {| u_id := 1; username := "alice@example.com"; full_name := "Alice";
     role := "user"; last_login := None |}.
Definition bob : User :=
  {| u_id := 2; username := "bob@example.com"; full_name := "Bob";
     role := "user"; last_login := None |}.
Definition root : User :=
  {| u_id := 3; username := "admin@quizmaster.com"; full_name := "Administrator";
     role := "admin"; last_login := Some (noon 2024 3 1) |}.
Definition carol : User :=
  {| u_id := 4; username := "carol@example.com"; full_name := "Carol";
     role := "user"; last_login := Some (noon 2024 2 20) |}.

Definition quiz_a : Quiz :=
  {| q_id := 1; q_chapter_id := 1; title := "Quiz A";
     date_of_quiz := mk_date 2024 3 10; time_duration := 30; is_active := true |}.
Definition quiz_b : Quiz :=
  {| q_id := 2; q_chapter_id := 1; title := "Quiz B";
     date_of_quiz := mk_date 2024 3 10; time_duration := 30; is_active := true |}.
Definition quiz_old : Quiz :=
  {| q_id := 3; q_chapter_id := 1; title := "Quiz C";
     date_of_quiz := mk_date 2024 2 1; time_duration := 30; is_active := true |}.

(** A sample value of an INTEGER column (0 when out of range). *)
Definition to_int64 (z : Z) : int64 :=
  match in_int64 z as b return in_int64 z = b -> int64 with
  | true => fun H => mk_int64 z H
  | false => fun _ => mk_int64 0 eq_refl
  end eq_refl.

Definition attempt (id quiz user s tq : Z) (t : datetime) : Score :=
  {| s_id := id; s_quiz_id := quiz; s_user_id := user; score_col := to_int64 s;
     total_questions_col := to_int64 tq; attempt_date := t; time_taken := Some 600 |}.

(** Bob opted out of everything, set his reminder to midnight and left the
    channel empty. *)
Definition bob_pref : UserPreference :=
  {| p_id := 1; p_user_id := 2; notification_type := Some ""; reminder_time := Some 0;
     webhook_url := None; phone_number := None;
     receive_daily_reminders := false; receive_monthly_reports := false |}.

Definition bob_pref_opted_in : UserPreference :=
  {| p_id := 1; p_user_id := 2; notification_type := Some ""; reminder_time := Some 0;
     webhook_url := None; phone_number := None;
     receive_daily_reminders := true; receive_monthly_reports := true |}.

Definition sample_db_with (prefs : list UserPreference) : DB :=
  {| users := [alice; bob; root; carol];
     subjects := [{| sub_id := 1; sub_name := "Mathematics" |}];
     chapters := [{| ch_id := 1; ch_subject_id := 1; ch_name := "Algebra" |}];
     quizzes := [quiz_a; quiz_b; quiz_old];
     scores := [ attempt 1 1 1 10 10 (noon 2024 2 10);
                 attempt 2 3 1 4 0 (noon 2024 2 11);
                 attempt 3 1 2 8 10 (noon 2024 1 15);
                 attempt 4 1 4 8 10 (noon 2024 2 20);
                 attempt 5 3 4 12 10 (noon 2023 12 31) ];
     user_preferences := prefs;
     scores_rowids := eq_refl |}.

Definition sample_db : DB := sample_db_with [bob_pref].

(** ** Vocabulary of the properties *)



(** The scores recorded for one quiz. *)
Definition quiz_scores (db : DB) (quiz_id : Z) : list Z :=
  map score (List.filter (fun r => s_quiz_id r =? quiz_id) (scores db)).

(** Ascending dates, rows of one date by ascending identifier. *)
Definition date_then_id_le (a b : Quiz) : Prop :=
  date_ltb (date_of_quiz a) (date_of_quiz b) = true
  \/ (date_of_quiz a = date_of_quiz b /\ q_id a <= q_id b).

(** [ORDER BY date_of_quiz] as SQLite runs it. *)
Definition sqlite_order (W : World) : Prop :=
  forall l : list Quiz, order_by_date_of_quiz W l = stable_order l.

(** [id] is the [INTEGER PRIMARY KEY] of the quiz table, so its rowid: a
    scan of the table visits the rows by ascending [id]. *)
Definition rowid_scan (db : DB) : Prop :=
  StronglySorted (fun a b => q_id a < q_id b) (quizzes db).

(** The user a rendered template is about. *)
Definition template_user (t : template) : User :=
  match t with
  | daily_reminder_html user _ _ => user
  | monthly_report_html user _ _ _ _ _ => user
  end.

(** Two preference rows that agree on everything but the two opt-in flags. *)
Definition same_but_opt_in (p p' : UserPreference) : Prop :=
  p_id p = p_id p' /\ p_user_id p = p_user_id p'
  /\ notification_type p = notification_type p'
  /\ reminder_time p = reminder_time p'
  /\ webhook_url p = webhook_url p'
  /\ phone_number p = phone_number p'.

(** Two states that differ only in the values of the opt-in flags. *)
Definition differ_only_in_opt_in (db db' : DB) : Prop :=
  users db = users db' /\ subjects db = subjects db' /\ chapters db = chapters db'
  /\ quizzes db = quizzes db' /\ scores db = scores db'
  /\ Forall2 same_but_opt_in (user_preferences db) (user_preferences db').

(** Calendar months counted from year 0. *)
Definition month_index (d : date) : Z := 12 * year d + (month d - 1).

Definition valid_datetime (t : datetime) : bool :=
  valid_date (dt_date t) && (0 <=? hour t) && (0 <=? minute t)
  && (0 <=? second t) && (0 <=? microsecond t).

(** ** Start-up: the administrator account *)

(** [config.py], line 35. *)
Definition ADMIN_USERNAME : string := "admin@quizmaster.com".

(** The row [create_app] adds ([app.py], lines 66-71); [new_id] is the
    key the engine gives it. *)
Definition administrator (new_id : Z) : User :=
  {| u_id := new_id; username := ADMIN_USERNAME; full_name := "Administrator";
     role := "admin"; last_login := None |}.

(** [app.py], lines 64-74: [create_app] adds the administrator unless a
    user of that name exists. The result is the database and the lines
    logged at level info. *)
Definition create_app_admin (new_id : Z) (db : DB) : DB * list string :=
  match find (fun u => String.eqb (username u) ADMIN_USERNAME) (users db) with
  | Some _ => (db, [])
  | None =>
      ({| users := users db ++ [administrator new_id];
          subjects := subjects db; chapters := chapters db; quizzes := quizzes db;
          scores := scores db; user_preferences := user_preferences db;
          scores_rowids := scores_rowids db |},
       ["Admin user created"])
  end.

(** ** More vocabulary and sample worlds *)

(** The mails among the calls of a run. *)
Definition mails (evs : list event) : list Message :=
  flat_map (fun e => match e with MailSend m => [m] | _ => [] end) evs.

(** A call that reaches a user: a mail, a webhook post or an SMS. *)
Definition transport_call (e : event) : bool :=
  match e with
  | MailSend _ | HttpPost _ _ | TwilioCreate _ _ _ => true
  | _ => false
  end.

(** The quiz, chapter and subject of an attempt all exist. *)
Definition well_linked (db : DB) (s : Score) : bool :=
  match Quiz_get db (s_quiz_id s) with
  | Some quiz =>
      match Chapter_get db (q_chapter_id quiz) with
      | Some chapter =>
          match Subject_get db (ch_subject_id chapter) with
          | Some _ => true
          | None => false
          end
      | None => false
      end
  | None => false
  end.

Definition referential_integrity (db : DB) : bool := forallb (well_linked db) (scores db).

(** The user has an attempt in the window. *)
Definition active_in (db : DB) (last_month first_day : date) (user : User) : bool :=
  negb (is_empty (monthly_attempts db user last_month first_day)).

(** The user was not seen since [recent_date]. *)
Definition inactive_since (recent_date : datetime) (user : User) : bool :=
  match last_login user with
  | None => true
  | Some t => datetime_ltb t recent_date
  end.

(** The call reaches [user]: a mail to the user's address about the
    user, a post to the webhook of the user's preference, an SMS to the
    phone number of the user's preference. *)
Definition addressed_to (user : User) (user_pref : option UserPreference) (e : event)
  : Prop :=
  match e with
  | MailSend m => recipients m = [username user] /\ template_user (html m) = user
  | HttpPost url _ => exists p, user_pref = Some p /\ webhook_url p = Some url
  | TwilioCreate _ _ to => exists p, user_pref = Some p /\ phone_number p = Some to
  | _ => False
  end.

(** The number of calls of a run that reach a user. *)
Definition transport_calls (evs : list event) : Z := len (List.filter transport_call evs).

(** The sample database with another user table. *)
Definition sample_db_with_users (l : list User) : DB :=
  {| users := l; subjects := subjects sample_db; chapters := chapters sample_db;
     quizzes := quizzes sample_db; scores := scores sample_db;
     user_preferences := user_preferences sample_db;
     scores_rowids := scores_rowids sample_db |}.

(** The quizzes the daily job chooses from: active and dated [today] or later. *)
Definition eligible_quizzes (db : DB) (today : date) : list Quiz :=
  List.filter (fun q => is_active q && date_leb today (date_of_quiz q)) (quizzes db).

(** The entry the monthly report shows for an attempt. *)
Definition ranking_of (db : DB) (a : Score) : ranking :=
  {| rank := rank_for_attempt db (s_quiz_id a) (score a);
     total := total_attempts_for_quiz db (s_quiz_id a) |}.

(** The same world with Twilio configured and answering [answer]. *)
Definition with_twilio (W : World) (answer : option exn) : World :=
  {| clock := clock W; smtp := smtp W; http := http W;
     twilio := fun _ _ _ _ => answer; fs_open := fs_open W; fs_write := fs_write W;
     order_by_date_of_quiz := order_by_date_of_quiz W;
     MAIL_DEFAULT_SENDER := MAIL_DEFAULT_SENDER W; APP_URL := APP_URL W;
     TWILIO_ACCOUNT_SID := Some "AC00000000";
     TWILIO_AUTH_TOKEN := Some "token";
     TWILIO_PHONE_NUMBER := Some "+15550000" |}.

(** The same world with a mail transport that fails on the [n]-th call. *)
Definition with_smtp_failing_at (W : World) (n : nat) : World :=
  {| clock := clock W;
     smtp := fun k m => if Nat.eqb k n then Some connection_refused else smtp W k m;
     http := http W; twilio := twilio W; fs_open := fs_open W; fs_write := fs_write W;
     order_by_date_of_quiz := order_by_date_of_quiz W;
     MAIL_DEFAULT_SENDER := MAIL_DEFAULT_SENDER W; APP_URL := APP_URL W;
     TWILIO_ACCOUNT_SID := TWILIO_ACCOUNT_SID W;
     TWILIO_AUTH_TOKEN := TWILIO_AUTH_TOKEN W;
     TWILIO_PHONE_NUMBER := TWILIO_PHONE_NUMBER W |}.

(** Dave takes his reminders in a chat room, Erin by SMS, Frank through a
    channel the job does not know. *)
Definition dave : User :=
  {| u_id := 5; username := "dave@example.com"; full_name := "Dave";
     role := "user"; last_login := None |}.
Definition dave_pref : UserPreference :=
  {| p_id := 2; p_user_id := 5; notification_type := Some "gchat";
     reminder_time := Some 9; webhook_url := Some "https://chat.example/room";
     phone_number := None;
     receive_daily_reminders := true; receive_monthly_reports := true |}.
Definition erin_pref : UserPreference :=
  {| p_id := 3; p_user_id := 6; notification_type := Some "sms";
     reminder_time := Some 9; webhook_url := None; phone_number := Some "+15551234";
     receive_daily_reminders := true; receive_monthly_reports := true |}.
Definition frank_pref : UserPreference :=
  {| p_id := 4; p_user_id := 7; notification_type := Some "push";
     reminder_time := Some 9; webhook_url := Some "https://chat.example/room";
     phone_number := Some "+15551234";
     receive_daily_reminders := true; receive_monthly_reports := true |}.

(** The sample database with an attempt on a quiz that no longer exists,
    made by Bob in February. *)
Definition dangling_db : DB :=
  {| users := users sample_db; subjects := subjects sample_db;
     chapters := chapters sample_db; quizzes := quizzes sample_db;
     scores := (scores sample_db ++ [attempt 6 99 2 5 10 (noon 2024 2 12)])%list;
     user_preferences := user_preferences sample_db;
     scores_rowids := eq_refl |}.

(* ================================================================== *)
(** * Part II: properties *)
(* ================================================================== *)

(** ** Orders on dates *)

Lemma date_leb_spec a b :
  date_leb a b = true <->
  year a < year b \/
  (year a = year b /\ (month a < month b \/ (month a = month b /\ day a <= day b))).
Proof.
  unfold date_leb, date_compare.
  destruct (Z.compare_spec (year a) (year b));
    destruct (Z.compare_spec (month a) (month b));
    destruct (Z.compare_spec (day a) (day b));
    split; intros; try discriminate; try reflexivity; lia.
Qed.

Lemma date_ltb_spec a b :
  date_ltb a b = true <->
  year a < year b \/
  (year a = year b /\ (month a < month b \/ (month a = month b /\ day a < day b))).
Proof.
  unfold date_ltb, date_compare.
  destruct (Z.compare_spec (year a) (year b));
    destruct (Z.compare_spec (month a) (month b));
    destruct (Z.compare_spec (day a) (day b));
    split; intros; try discriminate; try reflexivity; lia.
Qed.

Lemma date_leb_trans a b c :
  date_leb a b = true -> date_leb b c = true -> date_leb a c = true.
Proof. rewrite !date_leb_spec. lia. Qed.

Lemma date_leb_total a b : date_leb a b = true \/ date_leb b a = true.
Proof. rewrite !date_leb_spec. lia. Qed.

Lemma date_ltb_leb a b : date_ltb a b = true -> date_leb a b = true.
Proof. rewrite date_leb_spec, date_ltb_spec. lia. Qed.

Lemma date_ltb_false_leb a b : date_ltb a b = false -> date_leb b a = true.
Proof.
  intros H. apply date_leb_spec.
  destruct (date_ltb a b) eqn:E; [discriminate|].
  assert (~ (date_ltb a b = true)) as N by congruence.
  rewrite date_ltb_spec in N. lia.
Qed.

Lemma date_leb_false_leb a b : date_leb a b = false -> date_leb b a = true.
Proof. destruct (date_leb_total a b); congruence. Qed.

(** ** Percentages *)

Lemma float_overflow_bound_large : 2 ^ 127 <= float_overflow_bound.
Proof. apply Z.leb_le. vm_compute. reflexivity. Qed.

Lemma truediv_in_range a b :
  0 < b -> Z.abs a < 2 ^ 127 -> exists q, truediv a b = inr q.
Proof.
  intros Hb Ha. unfold truediv.
  destruct (Z.eqb_spec b 0); [lia|].
  destruct (Z.leb_spec (float_overflow_bound * Z.abs b) (Z.abs a)) as [Hover|]; [|eauto].
  exfalso. pose proof float_overflow_bound_large as Hlarge.
  assert (0 < 2 ^ 127) as Hpos by (apply Z.pow_pos_nonneg; lia).
  set (B := 2 ^ 127) in *. nia.
Qed.







Lemma percentage_expr_in_range num den :
  Z.abs num < 2 ^ 127 -> exists p, percentage_expr num den = inr p.
Proof.
  intros Hnum. unfold percentage_expr.
  destruct (Z.ltb_spec 0 den) as [Hpos | Hle]; [|eauto].
  destruct (truediv_in_range num den Hpos Hnum) as (q & ->). eauto.
Qed.

Lemma int64_bounds (v : int64) : - 2 ^ 63 <= int64_val v < 2 ^ 63.
Proof.
  destruct v as [z Hz]. cbn [int64_val]. unfold in_int64 in Hz.
  apply andb_true_iff in Hz. destruct Hz as (Hlo & Hhi).
  apply Z.leb_le in Hlo. apply Z.ltb_lt in Hhi. lia.
Qed.

(** The percentage of a row is always computed: its score and total are
    64-bit, far below the range of a float. *)
Lemma percentage_expr_total (s : Score) :
  exists p, percentage_expr (score s) (total_questions s) = inr p.
Proof.
  apply percentage_expr_in_range. unfold score.
  pose proof (int64_bounds (score_col s)) as Hs.
  assert (2 ^ 63 < 2 ^ 127) as Hpow by (apply Z.pow_lt_mono_r; lia).
  set (B := 2 ^ 63) in *. set (C := 2 ^ 127) in *. lia.
Qed.

Lemma fold_left_add_bound (B : Z) (l : list Z) :
  (forall x, In x l -> Z.abs x <= B) ->
  forall acc, Z.abs (fold_left Z.add l acc) <= Z.abs acc + B * Z.of_nat (length l).
Proof.
  induction l as [|x l IH]; intros Hall acc; simpl fold_left.
  - cbn [length]. lia.
  - specialize (IH (fun y Hy => Hall y (or_intror Hy)) (acc + x)).
    pose proof (Hall x (or_introl eq_refl)) as Hx.
    cbn [length]. lia.
Qed.

Lemma filter_length_le {A} (p : A -> bool) (l : list A) :
  (length (List.filter p l) <= length l)%nat.
Proof.
  induction l as [|x l IH]; simpl; [lia|]. destruct (p x); simpl; lia.
Qed.

(** The average of a month is always computed: the sum of fewer than
    [2^63] scores of 64 bits is far below the range of a float. *)
Lemma avg_percentage_of_total (db : DB) (attempts : list Score) :
  (length attempts <= length (scores db))%nat ->
  exists p, avg_percentage_of attempts = inr p.
Proof.
  intros Hlen. unfold avg_percentage_of. apply percentage_expr_in_range.
  unfold py_sum.
  pose proof (fold_left_add_bound (2 ^ 63) (map score attempts)) as Hsum.
  rewrite length_map in Hsum.
  assert (forall x, In x (map score attempts) -> Z.abs x <= 2 ^ 63) as Hall.
  { intros x Hx. apply in_map_iff in Hx. destruct Hx as (a & <- & _).
    unfold score. pose proof (int64_bounds (score_col a)). lia. }
  specialize (Hsum Hall 0).
  pose proof (scores_rowids db) as Hrows. apply Z.ltb_lt in Hrows.
  assert (2 ^ 127 = 2 ^ 63 * 2 ^ 63 * 2) as Hpow by reflexivity.
  assert (0 < 2 ^ 63) as Hpos by (apply Z.pow_pos_nonneg; lia).
  rewrite Hpow. set (B := 2 ^ 63) in *. nia.
Qed.



(** At the edge of the float range the division raises where the
    rounding of binary64 reaches infinity, and only there. *)
Example truediv_overflow_edge :
  truediv float_overflow_bound 1 = inl OverflowError
  /\ SFdiv prec emax (Z2SF float_overflow_bound) (Z2SF 1) = S754_infinity false
  /\ truediv (float_overflow_bound - 1) 1 = inr 0x1.fffffffffffffp+1023%float
  /\ truediv (2 ^ 53 + 1) 1 = inr 0x1p+53%float
  /\ truediv 0 (-3) = inr (-0)%float.
Proof. repeat split; vm_compute; reflexivity. Qed.

(** ** Ranks *)

Lemma or_int_positive n d : 0 < n -> or_int (Some n) d = n.
Proof.
  intros H. unfold or_int. destruct (Z.eqb_spec n 0); [lia | reflexivity].
Qed.

Lemma len_nonneg {A} (l : list A) : 0 <= len l.
Proof. unfold len. lia. Qed.

Lemma higher_scores_len db quiz_id s :
  len (higher_scores db quiz_id s) = len (List.filter (Z.ltb s) (quiz_scores db quiz_id)).
Proof.
  unfold higher_scores, quiz_scores, len. f_equal.
  induction (scores db) as [|r rows IH]; [reflexivity|].
  simpl. destruct (s_quiz_id r =? quiz_id); simpl; [|exact IH].
  destruct (s <? score r); simpl; rewrite IH; reflexivity.
Qed.

Lemma filter_length_perm (p : Z -> bool) (l l' : list Z) :
  Permutation l l' -> length (List.filter p l) = length (List.filter p l').
Proof.
  induction 1 as [|x l l' _ IH|x y l|l l' l'' _ IH1 _ IH2]; simpl.
  - reflexivity.
  - destruct (p x); simpl; rewrite IH; reflexivity.
  - destruct (p x), (p y); reflexivity.
  - congruence.
Qed.

(** The entry that [user_rankings] holds for the quiz of the last attempt
    of the month is that attempt's rank and the quiz's attempt count. *)
Lemma user_rankings_of_last db front a quiz acc m :
  Quiz_get db (s_quiz_id a) = Some quiz ->
  user_rankings_of db (front ++ [a])%list acc = inr m ->
  m !! title quiz =
    Some {| rank := rank_for_attempt db (s_quiz_id a) (score a);
            total := total_attempts_for_quiz db (s_quiz_id a) |}.
Proof.
  intros Hq. revert acc.
  induction front as [|b front IH]; intros acc; simpl.
  - rewrite Hq. intros [= <-]. apply lookup_insert_eq.
  - destruct (Quiz_get db (s_quiz_id b)); [apply IH | discriminate].
Qed.

(** C1. The rank computed for an attempt with score [s] on a quiz is
    1 plus the number of Score rows of that quiz with a strictly greater
    score (the [or 1] never applies); the rows counted are exactly those
    of the same quiz with a strictly greater score; attempts of one quiz
    with equal scores get equal ranks; and when the scores recorded for
    the quiz are 10, 8 and 8 in any order, the 10 ranks 1 and each 8
    ranks 2. *)
Theorem rank_counts_strictly_greater (db : DB) (quiz_id s : Z) :
  rank_for_attempt db quiz_id s = 1 + len (higher_scores db quiz_id s)
  /\ (forall r, In r (higher_scores db quiz_id s) <->
                In r (scores db) /\ s_quiz_id r = quiz_id /\ s < score r)
  /\ (forall a b : Score,
        s_quiz_id a = s_quiz_id b -> score a = score b ->
        rank_for_attempt db (s_quiz_id a) (score a)
        = rank_for_attempt db (s_quiz_id b) (score b))
  /\ (Permutation (quiz_scores db quiz_id) [10; 8; 8] ->
        rank_for_attempt db quiz_id 10 = 1 /\ rank_for_attempt db quiz_id 8 = 2).
Proof.
  assert (forall q x, rank_for_attempt db q x = 1 + len (higher_scores db q x)) as Hrank.
  { intros q x. unfold rank_for_attempt.
    rewrite or_int_positive; [lia | pose proof (len_nonneg (higher_scores db q x)); lia]. }
  split; [apply Hrank|].
  split.
  { intros r. unfold higher_scores. rewrite filter_In, andb_true_iff.
    rewrite Z.eqb_eq, Z.ltb_lt. tauto. }
  split.
  { intros a b -> ->. reflexivity. }
  intros Hperm. rewrite !Hrank, !higher_scores_len. unfold len.
  rewrite !(filter_length_perm _ _ _ Hperm). split; reflexivity.
Qed.

(** On the sample database, quiz 1 has the attempts 10, 8 and 8. *)
Lemma rank_counts_strictly_greater_witness :
  Permutation (quiz_scores sample_db 1) [10; 8; 8]
  /\ rank_for_attempt sample_db 1 10 = 1
  /\ rank_for_attempt sample_db 1 8 = 2.
Proof.
  assert (Permutation (quiz_scores sample_db 1) [10; 8; 8]) as Hperm
    by (vm_compute; apply Permutation_refl).
  split; [exact Hperm|].
  exact (proj2 (proj2 (proj2 (rank_counts_strictly_greater sample_db 1 0))) Hperm).
Defined.

(** ** The report month *)

Lemma days_in_month_ge_28 y m : 28 <= days_in_month y m.
Proof.
  unfold days_in_month.
  destruct (m =? 2); [destruct (is_leap y); lia|].
  destruct ((m =? 4) || (m =? 6) || (m =? 9) || (m =? 11)); lia.
Qed.

Lemma date_new_ok y m d :
  1 <= y <= 9999 -> 1 <= m <= 12 -> 1 <= d <= days_in_month y m ->
  date_new y m d = inr (mk_date y m d).
Proof.
  intros Hy Hm Hd. unfold date_new.
  replace ((1 <=? y) && (y <=? 9999)) with true
    by (symmetry; apply andb_true_iff; split; apply Z.leb_le; lia).
  replace ((1 <=? m) && (m <=? 12)) with true
    by (symmetry; apply andb_true_iff; split; apply Z.leb_le; lia).
  replace ((1 <=? d) && (d <=? days_in_month y m)) with true
    by (symmetry; apply andb_true_iff; split; apply Z.leb_le; lia).
  reflexivity.
Qed.

Lemma valid_date_bounds d :
  valid_date d = true ->
  1 <= year d <= 9999 /\ 1 <= month d <= 12 /\ 1 <= day d <= days_in_month (year d) (month d).
Proof.
  unfold valid_date. rewrite !andb_true_iff, !Z.leb_le. lia.
Qed.

Lemma valid_datetime_bounds t :
  valid_datetime t = true ->
  valid_date (dt_date t) = true /\
  0 <= hour t /\ 0 <= minute t /\ 0 <= second t /\ 0 <= microsecond t.
Proof.
  unfold valid_datetime. rewrite !andb_true_iff, !Z.leb_le. tauto.
Qed.

(** Against a well-formed timestamp, a midnight bound is a bound on the date. *)
Lemma midnight_leb d t :
  0 <= hour t -> 0 <= minute t -> 0 <= second t -> 0 <= microsecond t ->
  datetime_leb (at_midnight d) t = date_leb d (dt_date t).
Proof.
  intros Hh Hm Hs Hu. unfold datetime_leb, datetime_compare, date_leb, at_midnight.
  cbn [dt_date].
  destruct (date_compare d (dt_date t)); try reflexivity.
  unfold time_compare; cbn [hour minute second microsecond].
  destruct (Z.compare_spec 0 (hour t)); try reflexivity; try lia.
  destruct (Z.compare_spec 0 (minute t)); try reflexivity; try lia.
  destruct (Z.compare_spec 0 (second t)); try reflexivity; try lia.
  destruct (Z.compare_spec 0 (microsecond t)); try reflexivity; lia.
Qed.

Lemma midnight_ltb d t :
  0 <= hour t -> 0 <= minute t -> 0 <= second t -> 0 <= microsecond t ->
  datetime_ltb t (at_midnight d) = date_ltb (dt_date t) d.
Proof.
  intros Hh Hm Hs Hu. unfold datetime_ltb, datetime_compare, date_ltb, at_midnight.
  cbn [dt_date].
  destruct (date_compare (dt_date t) d); try reflexivity.
  unfold time_compare; cbn [hour minute second microsecond].
  destruct (Z.compare_spec (hour t) 0); try reflexivity; try lia.
  destruct (Z.compare_spec (minute t) 0); try reflexivity; try lia.
  destruct (Z.compare_spec (second t) 0); try reflexivity; try lia.
  destruct (Z.compare_spec (microsecond t) 0); try reflexivity; lia.
Qed.

(** C4. For a current date other than one in January of year 1 (whose
    previous month no [date] can hold), the job's bounds are the first day
    of the current month and the first day of the month before it, which
    is December of the previous year when the current month is January;
    the attempts selected for a user are exactly that user's Score rows
    with [last_month <= attempt_date < first_day], that is, for a
    well-formed timestamp, those dated in the previous calendar month. *)
Theorem monthly_window_is_previous_month (today : date) :
  valid_date today = true ->
  1 < year today \/ 1 < month today ->
  exists last_month first_day,
    month_bounds today = inr (last_month, first_day)
    /\ first_day = mk_date (year today) (month today) 1
    /\ day last_month = 1
    /\ 1 <= month last_month <= 12
    /\ month_index last_month = month_index today - 1
    /\ (month today = 1 -> last_month = mk_date (year today - 1) 12 1)
    /\ (forall db user s,
          In s (monthly_attempts db user last_month first_day) <->
          In s (scores db) /\ s_user_id s = u_id user
          /\ datetime_leb (at_midnight last_month) (attempt_date s) = true
          /\ datetime_ltb (attempt_date s) (at_midnight first_day) = true)
    /\ (forall db user s,
          valid_datetime (attempt_date s) = true ->
          (In s (monthly_attempts db user last_month first_day) <->
           In s (scores db) /\ s_user_id s = u_id user
           /\ month_index (dt_date (attempt_date s)) = month_index today - 1)).
Proof.
  intros Hvalid Hnot_first.
  destruct (valid_date_bounds _ Hvalid) as (Hy & Hm & Hd).
  pose proof (days_in_month_ge_28 (year today) (month today)) as H28.
  assert (forall db user lm fd s,
            In s (monthly_attempts db user lm fd) <->
            In s (scores db) /\ s_user_id s = u_id user
            /\ datetime_leb (at_midnight lm) (attempt_date s) = true
            /\ datetime_ltb (attempt_date s) (at_midnight fd) = true) as Hsel.
  { intros db user lm fd s. unfold monthly_attempts.
    rewrite filter_In, !andb_true_iff, Z.eqb_eq. tauto. }
  assert (forall lm, day lm = 1 -> 1 <= month lm <= 12 ->
            month_index lm = month_index today - 1 ->
            forall db user s, valid_datetime (attempt_date s) = true ->
              (In s (monthly_attempts db user lm (mk_date (year today) (month today) 1)) <->
               In s (scores db) /\ s_user_id s = u_id user
               /\ month_index (dt_date (attempt_date s)) = month_index today - 1)) as Hmonth.
  { intros lm Hday Hlm Hidx db user s Hs.
    destruct (valid_datetime_bounds _ Hs) as (Hsd & Hh & Hmi & Hse & Hus).
    destruct (valid_date_bounds _ Hsd) as (Hsy & Hsm & Hsday).
    rewrite Hsel, midnight_leb, midnight_ltb by assumption.
    rewrite date_leb_spec, date_ltb_spec. unfold month_index in *. simpl.
    split; intros (Hin & Hu & H); (split; [exact Hin | split; [exact Hu | lia]]). }
  unfold month_bounds.
  rewrite (date_new_ok (year today) (month today) 1) by lia.
  destruct (Z.eqb_spec (month today) 1) as [Hjan | Hnjan].
  - rewrite (date_new_ok (year today - 1) 12 1)
      by (try (unfold days_in_month; simpl); lia).
    exists (mk_date (year today - 1) 12 1), (mk_date (year today) (month today) 1).
    split; [reflexivity|]. split; [reflexivity|]. split; [reflexivity|].
    split; [simpl; lia|]. split; [unfold month_index; simpl; lia|].
    split; [reflexivity|].
    split; [intros; apply Hsel|].
    intros db user s Hs.
    apply Hmonth; [reflexivity | simpl; lia | unfold month_index; simpl; lia | assumption].
  - pose proof (days_in_month_ge_28 (year today) (month today - 1)) as H28'.
    rewrite (date_new_ok (year today) (month today - 1) 1) by lia.
    exists (mk_date (year today) (month today - 1) 1), (mk_date (year today) (month today) 1).
    split; [reflexivity|]. split; [reflexivity|]. split; [reflexivity|].
    split; [simpl; lia|]. split; [unfold month_index; simpl; lia|].
    split; [intros; exfalso; lia|].
    split; [intros; apply Hsel|].
    intros db user s Hs.
    apply Hmonth; [reflexivity | simpl; lia | unfold month_index; simpl; lia | assumption].
Qed.

(** In January of year 1 the job stops on the [date] constructor. *)
Lemma month_bounds_first_january (d : Z) :
  month_bounds (mk_date 1 1 d) = inl (ValueError "year 0 is out of range").
Proof. reflexivity. Qed.

(** A run in mid-January 2024 reports on December 2023. *)
Lemma monthly_window_is_previous_month_witness :
  valid_date (mk_date 2024 1 15) = true
  /\ month_bounds (mk_date 2024 1 15) = inr (mk_date 2023 12 1, mk_date 2024 1 1)
  /\ monthly_attempts sample_db carol (mk_date 2023 12 1) (mk_date 2024 1 1)
     = [attempt 5 3 4 12 10 (noon 2023 12 31)].
Proof.
  split; [reflexivity|].
  destruct (monthly_window_is_previous_month (mk_date 2024 1 15) eq_refl
              (or_introl (eq_refl : (1 ?= 2024) = Lt)))
    as (last_month & first_day & Hbounds & Hfirst & _ & _ & _ & Hjan & _).
  rewrite Hbounds, Hfirst, (Hjan eq_refl).
  split; reflexivity.
Defined.

(** ** The webhook channel *)

(** C5. The webhook channel returns [False] at once, with no call at
    all, when the URL is missing or empty; otherwise it posts once and
    returns [True] exactly when the answer has status 200; a transport
    exception is logged and turned into [False]; in every case the
    function returns a boolean and does not raise. *)
Theorem webhook_true_iff_status_200 (W : World) (webhook_url : option string)
    (message_text : string) (title : option string) (sections : option (list json))
    (k : nat) :
  let r := send_gchat_webhook W webhook_url message_text title sections k in
  (truthy_str webhook_url = false -> r = (inr false, k, []))
  /\ (forall url, webhook_url = Some url -> url <> "" ->
        exists payload,
          (exists rest, calls r = HttpPost url payload :: rest)
          /\ (outcome r = inr true <-> http W k url payload = inr 200)
          /\ (forall status, http W k url payload = inr status ->
                r = (inr (status =? 200), S k, [HttpPost url payload]))
          /\ (forall e, http W k url payload = inl e ->
                r = (inr false, S k,
                     [HttpPost url payload;
                      LogError ("Google Chat webhook error: " ++ exn_msg e)])))
  /\ (exists b, outcome r = inr b).
Proof.
  cbv zeta. unfold send_gchat_webhook.
  destruct (truthy_str webhook_url) eqn:Htruthy; cbn [negb].
  - split; [discriminate|].
    set (payload := if truthy_str title || truthy_list sections then _ else _).
    assert (forall url, webhook_url = Some url -> or_str webhook_url "" = url) as Hurl.
    { intros url ->. unfold truthy_str in Htruthy. unfold or_str.
      destruct (String.eqb url ""); [discriminate | reflexivity]. }
    unfold try_except, bind, requests_post, ret, logger_error, emit, outcome, calls.
    split.
    + intros url Hsome Hne. rewrite (Hurl url Hsome). exists payload.
      destruct (http W k url payload) as [e|status] eqn:Hhttp; cbn.
      * split; [eauto|]. split; [split; discriminate|].
        split; [discriminate|]. intros e' [= <-]. reflexivity.
      * split; [eauto|].
        split.
        { split.
          - intros [= Hs]. apply Z.eqb_eq in Hs. congruence.
          - intros [= ->]. reflexivity. }
        split; [intros s [= <-]; reflexivity | discriminate].
    + destruct (http W k (or_str webhook_url "") payload); cbn; eauto.
  - split; [reflexivity|].
    split; [|cbn; eauto].
    intros url -> Hne. exfalso. unfold truthy_str in Htruthy.
    destruct (String.eqb_spec url ""); [contradiction | discriminate].
Qed.

(** An endpoint answering 200, one answering 404, one that cannot be
    reached, and a preference without URL. *)
Lemma webhook_true_iff_status_200_witness :
  outcome (send_gchat_webhook (calm_world (noon 2024 3 1) stable_order)
             (Some "https://chat.example/hook") "hello" None None 0%nat) = inr true
  /\ outcome (send_gchat_webhook (with_http (calm_world (noon 2024 3 1) stable_order) (inr 404))
             (Some "https://chat.example/hook") "hello" None None 0%nat) = inr false
  /\ send_gchat_webhook (with_http (calm_world (noon 2024 3 1) stable_order)
                                   (inl connection_refused))
       (Some "https://chat.example/hook") "hello" None None 0%nat
     = (inr false, 1%nat,
        [HttpPost "https://chat.example/hook" (JObj [("text", JStr "hello")]);
         LogError "Google Chat webhook error: connection refused"])
  /\ send_gchat_webhook (calm_world (noon 2024 3 1) stable_order)
       (Some "") "hello" None None 0%nat = (inr false, 0%nat, []).
Proof.
  split; [reflexivity|]. split; [reflexivity|]. split; [reflexivity|].
  exact (proj1 (webhook_true_iff_status_200 (calm_world (noon 2024 3 1) stable_order)
                  (Some "") "hello" None None 0%nat) eq_refl).
Defined.

(** ** Upcoming quizzes *)

Section Insertion.

Variable before : Quiz -> Quiz -> bool.
Hypothesis before_le : forall x y, before x y = true -> date_of_quiz_le x y.
Hypothesis not_before_ge : forall x y, before x y = false -> date_of_quiz_le y x.

Lemma insert_quiz_perm x l : Permutation (x :: l) (insert_quiz before x l).
Proof.
  induction l as [|y l IH]; simpl; [apply Permutation_refl|].
  destruct (before x y); [apply Permutation_refl|].
  eapply Permutation_trans; [apply perm_swap|]. apply perm_skip, IH.
Qed.

Lemma sort_quizzes_perm l : Permutation l (sort_quizzes before l).
Proof.
  induction l as [|x l IH]; simpl; [apply Permutation_refl|].
  eapply Permutation_trans; [apply perm_skip, IH | apply insert_quiz_perm].
Qed.

Lemma insert_quiz_sorted x l :
  StronglySorted date_of_quiz_le l ->
  StronglySorted date_of_quiz_le (insert_quiz before x l).
Proof using before_le not_before_ge.
  induction 1 as [|y l Hsorted IH Hall]; simpl.
  - constructor; constructor.
  - destruct (before x y) eqn:Hxy.
    + constructor; [constructor; assumption|].
      constructor; [apply before_le, Hxy|].
      eapply List.Forall_impl; [|exact Hall].
      intros z Hyz. eapply date_leb_trans; [apply before_le, Hxy | exact Hyz].
    + constructor; [exact IH|].
      eapply Permutation_Forall; [apply insert_quiz_perm|].
      constructor; [apply not_before_ge, Hxy | exact Hall].
Qed.

Lemma sort_quizzes_sorted l : StronglySorted date_of_quiz_le (sort_quizzes before l).
Proof using before_le not_before_ge.
  induction l as [|x l IH]; simpl; [constructor | apply insert_quiz_sorted, IH].
Qed.

End Insertion.

Lemma stable_order_sorts t : engine_sorts (calm_world t stable_order).
Proof.
  intros l. simpl. unfold stable_order. split.
  - apply sort_quizzes_perm.
  - apply sort_quizzes_sorted.
    + intros x y H. exact H.
    + intros x y H. apply date_leb_false_leb, H.
Qed.

Lemma In_firstn {A} (n : nat) (l : list A) x : In x (firstn n l) -> In x l.
Proof.
  intros H. rewrite <- (firstn_skipn n l). apply in_or_app. left. exact H.
Qed.

Lemma firstn_sorted {A} (R : A -> A -> Prop) (n : nat) (l : list A) :
  StronglySorted R l -> StronglySorted R (firstn n l).
Proof.
  intros H. revert n. induction H as [|x l Hs IH Hall]; intros [|n]; simpl;
    try constructor.
  - apply IH.
  - apply List.Forall_forall. intros y Hy.
    apply (proj1 (List.Forall_forall _ _) Hall), (In_firstn n), Hy.
Qed.

Lemma date_leb_cases a b : date_leb a b = true -> date_ltb a b = true \/ a = b.
Proof.
  rewrite date_leb_spec, date_ltb_spec. destruct a, b; cbn [year month day].
  intros H.
  destruct (Z.eq_dec day0 day1) as [->|];
    [destruct (Z.eq_dec month0 month1) as [->|];
       [destruct (Z.eq_dec year0 year1) as [->|]; [right; reflexivity|]|]|];
    left; lia.
Qed.

Lemma date_leb_false_ltb a b : date_leb a b = false -> date_ltb b a = true.
Proof.
  intros H. apply date_ltb_spec.
  assert (~ (date_leb a b = true)) as N by congruence.
  rewrite date_leb_spec in N. lia.
Qed.

Lemma date_then_id_le_date a b :
  date_then_id_le a b -> date_leb (date_of_quiz a) (date_of_quiz b) = true.
Proof.
  intros [Hlt | [Heq _]]; [apply date_ltb_leb, Hlt|].
  rewrite Heq. apply date_leb_spec. lia.
Qed.

Lemma date_then_id_le_intro a b :
  date_leb (date_of_quiz a) (date_of_quiz b) = true -> q_id a <= q_id b ->
  date_then_id_le a b.
Proof.
  intros Hle Hid. destruct (date_leb_cases _ _ Hle) as [Hlt | Heq];
    [left; exact Hlt | right; split; assumption].
Qed.

(** A row scanned before all the rows of a sorted list goes in front of
    the rows of its date. *)
Lemma insert_quiz_stable x l :
  StronglySorted date_then_id_le l ->
  Forall (fun y => q_id x < q_id y) l ->
  StronglySorted date_then_id_le
    (insert_quiz (fun a b => date_leb (date_of_quiz a) (date_of_quiz b)) x l).
Proof.
  induction 1 as [|y l Hsorted IH Hall]; intros Hids; simpl.
  - constructor; constructor.
  - pose proof (proj1 (List.Forall_forall _ _) Hids) as Hid.
    destruct (date_leb (date_of_quiz x) (date_of_quiz y)) eqn:Hxy.
    + constructor; [constructor; assumption|].
      apply List.Forall_forall. intros z [<- | Hz].
      * apply date_then_id_le_intro; [exact Hxy|].
        specialize (Hid y (or_introl eq_refl)). cbn beta in Hid. lia.
      * apply date_then_id_le_intro.
        -- eapply date_leb_trans; [exact Hxy|].
           apply date_then_id_le_date, (proj1 (List.Forall_forall _ _) Hall z Hz).
        -- specialize (Hid z (or_intror Hz)). cbn beta in Hid. lia.
    + constructor.
      * apply IH. apply List.Forall_forall. intros z Hz. apply Hid. right. exact Hz.
      * eapply Permutation_Forall; [apply insert_quiz_perm|].
        constructor; [left; apply date_leb_false_ltb, Hxy | exact Hall].
Qed.

Lemma stable_order_by_date_then_id l :
  StronglySorted (fun a b => q_id a < q_id b) l ->
  StronglySorted date_then_id_le (stable_order l).
Proof.
  unfold stable_order.
  induction 1 as [|x l Hsorted IH Hall]; simpl; [constructor|].
  apply insert_quiz_stable; [exact IH|].
  eapply Permutation_Forall; [apply sort_quizzes_perm | exact Hall].
Qed.

Lemma filter_sorted {A} (R : A -> A -> Prop) (p : A -> bool) (l : list A) :
  StronglySorted R l -> StronglySorted R (List.filter p l).
Proof.
  induction 1 as [|x l Hsorted IH Hall]; simpl; [constructor|].
  destruct (p x); [|exact IH].
  constructor; [exact IH|].
  apply List.Forall_forall. intros y Hy. apply filter_In in Hy.
  exact (proj1 (List.Forall_forall _ _) Hall y (proj1 Hy)).
Qed.

Lemma sqlite_order_sorts W : sqlite_order W -> engine_sorts W.
Proof.
  intros Hsqlite l. rewrite Hsqlite. unfold stable_order. split.
  - apply sort_quizzes_perm.
  - apply sort_quizzes_sorted.
    + intros x y H. exact H.
    + intros x y H. apply date_leb_false_leb, H.
Qed.

(** C6. The candidate quizzes of the daily job are rows of the quiz
    table that are active and dated today or later, there are at most 5
    of them, and they come by ascending date, those of one date by
    ascending identifier. The query orders by [date_of_quiz] alone; the
    order of the rows of one date is that of SQLite, the engine the
    configuration names: its sorter keeps them as scanned, and the scan
    goes by rowid, which is the identifier. *)
Theorem upcoming_quizzes_active_sorted_limited (W : World) (db : DB) (today : date) :
  sqlite_order W ->
  rowid_scan db ->
  (forall q, In q (upcoming_quizzes_query W db today) ->
     In q (quizzes db) /\ is_active q = true
     /\ date_leb today (date_of_quiz q) = true)
  /\ (length (upcoming_quizzes_query W db today) <= 5)%nat
  /\ StronglySorted date_then_id_le (upcoming_quizzes_query W db today).
Proof.
  intros Hsqlite Hscan. unfold upcoming_quizzes_query.
  set (rows := List.filter _ (quizzes db)).
  destruct (sqlite_order_sorts W Hsqlite rows) as (Hperm & _).
  split.
  { intros q Hq. apply In_firstn in Hq.
    apply (Permutation_in _ (Permutation_sym Hperm)) in Hq.
    unfold rows in Hq. apply filter_In in Hq. destruct Hq as (Hin & Hcond).
    apply andb_true_iff in Hcond. tauto. }
  split.
  { rewrite length_firstn. apply Nat.le_min_l. }
  apply firstn_sorted. rewrite Hsqlite.
  apply stable_order_by_date_then_id, filter_sorted, Hscan.
Qed.

(** On 1 January 2024 the sample table, scanned as quizzes 1, 2, 3, gives
    quiz 3 of 1 February first, then quizzes 1 and 2 of 10 March. *)
Lemma upcoming_quizzes_active_sorted_limited_witness :
  upcoming_quizzes_query (calm_world (noon 2024 1 1) stable_order) sample_db
    (mk_date 2024 1 1) = [quiz_old; quiz_a; quiz_b]
  /\ StronglySorted date_then_id_le
       (upcoming_quizzes_query (calm_world (noon 2024 1 1) stable_order) sample_db
          (mk_date 2024 1 1)).
Proof.
  split; [reflexivity|].
  refine (proj2 (proj2 (upcoming_quizzes_active_sorted_limited
                          (calm_world (noon 2024 1 1) stable_order) sample_db
                          (mk_date 2024 1 1) (fun l => eq_refl) _))).
  unfold rowid_scan. simpl. repeat constructor; simpl; lia.
Defined.

(** ** The hour gate of the daily reminders *)

Lemma is_empty_false {A} (l : list A) : l <> [] -> is_empty l = false.
Proof. destruct l; [contradiction | reflexivity]. Qed.

(** A user with new quizzes is dispatched when the clock shows the
    resolved hour and is passed over otherwise. *)
Lemma reminder_step_gate W db today upcoming_quizzes user reminders_sent k :
  new_quizzes_for db upcoming_quizzes user <> [] ->
  reminder_step W db today upcoming_quizzes user reminders_sent k
  = if hour (clock W k) =? resolve_reminder_time (user_pref_of db user)
    then dispatch_reminder W today user (user_pref_of db user)
           (new_quizzes_for db upcoming_quizzes user) reminders_sent (S k)
    else (inr reminders_sent, S k, []).
Proof.
  intros Hnew. unfold reminder_step. rewrite (is_empty_false _ Hnew).
  unfold bind, datetime_now.
  destruct (hour (clock W k) =? resolve_reminder_time (user_pref_of db user));
    cbn [negb]; [|reflexivity].
  destruct (dispatch_reminder _ _ _ _ _ _ _) as [[r k2] ev]. reflexivity.
Qed.

Lemma dispatch_email W today user user_pref new_quizzes reminders_sent k :
  resolve_notification_type user_pref = "email" ->
  dispatch_reminder W today user user_pref new_quizzes reminders_sent k
  = let msg := {| subject := "Quiz Master - Daily Reminder";
                  recipients := [username user];
                  html := daily_reminder_html user new_quizzes today;
                  sender := MAIL_DEFAULT_SENDER W |} in
    (match smtp W k msg with Some e => inl e | None => inr (reminders_sent + 1) end,
     S k, [MailSend msg]).
Proof.
  intros Hemail. unfold dispatch_reminder. rewrite Hemail. cbv zeta.
  change (String.eqb "email" "email") with true. cbv iota.
  unfold bind, mail_send, call, ret.
  destruct (smtp W k _); reflexivity.
Qed.

(** C2. For a user of the daily job with new quizzes: without a
    UserPreference row the channel is email and the reminder hour 18;
    when the current hour differs from the resolved hour the user is
    passed over (nothing is sent, the count is unchanged); when it is
    equal the user goes to the dispatch, which without a preference row
    sends the reminder email and counts it. *)
Theorem reminder_hour_gate (W : World) (db : DB) (today : date)
    (upcoming_quizzes : list Quiz) (user : User) (reminders_sent : Z) (k : nat) :
  new_quizzes_for db upcoming_quizzes user <> [] ->
  (user_pref_of db user = None ->
     resolve_notification_type (user_pref_of db user) = "email"
     /\ resolve_reminder_time (user_pref_of db user) = 18)
  /\ (hour (clock W k) <> resolve_reminder_time (user_pref_of db user) ->
        reminder_step W db today upcoming_quizzes user reminders_sent k
        = (inr reminders_sent, S k, []))
  /\ (hour (clock W k) = resolve_reminder_time (user_pref_of db user) ->
        reminder_step W db today upcoming_quizzes user reminders_sent k
        = dispatch_reminder W today user (user_pref_of db user)
            (new_quizzes_for db upcoming_quizzes user) reminders_sent (S k))
  /\ (user_pref_of db user = None -> hour (clock W k) = 18 ->
        exists msg,
          recipients msg = [username user]
          /\ reminder_step W db today upcoming_quizzes user reminders_sent k
             = (match smtp W (S k) msg with
                | Some e => inl e
                | None => inr (reminders_sent + 1)
                end, S (S k), [MailSend msg])).
Proof.
  intros Hnew. rewrite (reminder_step_gate _ _ _ _ _ _ _ Hnew).
  split; [intros ->; split; reflexivity|].
  split.
  { intros Hne. destruct (Z.eqb_spec (hour (clock W k))
                            (resolve_reminder_time (user_pref_of db user)));
      [contradiction | reflexivity]. }
  split.
  { intros ->. rewrite Z.eqb_refl. reflexivity. }
  intros Hnone H18. rewrite Hnone. cbn [resolve_reminder_time].
  rewrite H18. change (18 =? 18) with true. cbv iota.
  rewrite dispatch_email by reflexivity. cbv zeta.
  eexists. split; [|reflexivity]. reflexivity.
Qed.

(** Alice has no preference row and one quiz left: at 17:00 nothing
    happens, at 18:00 she is mailed and counted. *)
Lemma reminder_hour_gate_witness :
  new_quizzes_for sample_db [quiz_a; quiz_b] alice = [quiz_b]
  /\ reminder_step (calm_world (at_hour 2024 3 1 17) stable_order) sample_db
       (mk_date 2024 3 1) [quiz_a; quiz_b] alice 0 0%nat = (inr 0, 1%nat, [])
  /\ outcome (reminder_step (calm_world (at_hour 2024 3 1 18) stable_order) sample_db
                (mk_date 2024 3 1) [quiz_a; quiz_b] alice 0 0%nat) = inr 1.
Proof.
  split; [reflexivity|]. split; [|reflexivity].
  refine (proj1 (proj2 (reminder_hour_gate
                          (calm_world (at_hour 2024 3 1 17) stable_order) sample_db
                          (mk_date 2024 3 1) [quiz_a; quiz_b] alice 0 0%nat _)) _).
  - discriminate.
  - discriminate.
Defined.

(** C10. For a user with new quizzes whose preference row has
    [reminder_time = 0], the resolved hour is 18: during hour 0 the user
    is passed over, during hour 18 the user goes to the dispatch; and an
    empty [notification_type] resolves to email. *)
Theorem midnight_reminder_time_resolves_to_18 (W : World) (db : DB) (today : date)
    (upcoming_quizzes : list Quiz) (user : User) (p : UserPreference)
    (reminders_sent : Z) (k : nat) :
  user_pref_of db user = Some p ->
  new_quizzes_for db upcoming_quizzes user <> [] ->
  (reminder_time p = Some 0 ->
     resolve_reminder_time (Some p) = 18
     /\ (hour (clock W k) = 0 ->
           reminder_step W db today upcoming_quizzes user reminders_sent k
           = (inr reminders_sent, S k, []))
     /\ (hour (clock W k) = 18 ->
           reminder_step W db today upcoming_quizzes user reminders_sent k
           = dispatch_reminder W today user (Some p)
               (new_quizzes_for db upcoming_quizzes user) reminders_sent (S k)))
  /\ (notification_type p = Some "" -> resolve_notification_type (Some p) = "email").
Proof.
  intros Hpref Hnew. split.
  - intros Hzero. rewrite (reminder_step_gate _ _ _ _ _ _ _ Hnew), Hpref.
    assert (resolve_reminder_time (Some p) = 18) as ->
      by (cbn [resolve_reminder_time]; rewrite Hzero; reflexivity).
    split; [reflexivity|].
    split; intros ->; reflexivity.
  - intros Hempty. cbn [resolve_notification_type]. rewrite Hempty. reflexivity.
Qed.

(** Bob set his reminder to midnight and left the channel empty: at
    00:00 nothing happens, at 18:00 he is mailed. *)
Lemma midnight_reminder_time_resolves_to_18_witness :
  user_pref_of sample_db bob = Some bob_pref
  /\ reminder_time bob_pref = Some 0
  /\ reminder_step (calm_world (at_hour 2024 3 1 0) stable_order) sample_db
       (mk_date 2024 3 1) [quiz_a; quiz_b] bob 0 0%nat = (inr 0, 1%nat, [])
  /\ outcome (reminder_step (calm_world (at_hour 2024 3 1 18) stable_order) sample_db
                (mk_date 2024 3 1) [quiz_a; quiz_b] bob 0 0%nat) = inr 1
  /\ resolve_notification_type (Some bob_pref) = "email".
Proof.
  split; [reflexivity|]. split; [reflexivity|].
  assert (new_quizzes_for sample_db [quiz_a; quiz_b] bob <> []) as Hnew by discriminate.
  pose proof (midnight_reminder_time_resolves_to_18
                (calm_world (at_hour 2024 3 1 0) stable_order) sample_db
                (mk_date 2024 3 1) [quiz_a; quiz_b] bob bob_pref 0 0%nat eq_refl Hnew)
    as (Hmid & Hmail).
  destruct (Hmid eq_refl) as (_ & Hskip & _).
  split; [exact (Hskip eq_refl)|].
  split; [reflexivity | exact (Hmail eq_refl)].
Defined.

(** ** Congruences of the job monad *)

Lemma bind_cong {A B} (m m' : M A) (f g : A -> M B) k :
  m k = m' k -> (forall a k1, f a k1 = g a k1) -> bind m f k = bind m' g k.
Proof.
  intros Hm Hf. unfold bind. rewrite Hm.
  destruct (m' k) as [[[e|a] k1] ev]; [reflexivity|]. rewrite Hf. reflexivity.
Qed.

Lemma try_except_cong {A} (m m' : M A) (h : exn -> M A) k :
  m k = m' k -> try_except m h k = try_except m' h k.
Proof. intros Hm. unfold try_except. rewrite Hm. reflexivity. Qed.

Lemma for_each_cong {A S} (l : list A) (f g : A -> S -> M S) :
  (forall x acc k, f x acc k = g x acc k) ->
  forall acc k, for_each l f acc k = for_each l g acc k.
Proof.
  intros Hfg. induction l as [|x l IH]; intros acc k; simpl; [reflexivity|].
  apply bind_cong; [apply Hfg | intros; apply IH].
Qed.

Lemma mapE_cong {A B} (f g : A -> exn + B) (l : list A) :
  (forall x, f x = g x) -> mapE f l = mapE g l.
Proof.
  intros Hfg. induction l as [|x l IH]; simpl; [reflexivity|].
  rewrite Hfg, IH. reflexivity.
Qed.

(** ** The opt-in flags are not read *)

Section OptIn.

Variables (W : World) (db db' : DB).
Hypothesis Hdiff : differ_only_in_opt_in db db'.

Ltac tables :=
  destruct Hdiff as (Husers & Hsubjects & Hchapters & Hquizzes & Hscores & Hprefs).

Lemma user_pref_of_opt_in user :
  match user_pref_of db user, user_pref_of db' user with
  | Some p, Some p' => same_but_opt_in p p'
  | None, None => True
  | _, _ => False
  end.
Proof using Hdiff.
  tables. unfold user_pref_of.
  induction Hprefs as [|p p' l l' Hp _ IH]; simpl; [exact I|].
  destruct Hp as (Hid & Huid & Hrest). rewrite <- Huid.
  destruct (p_user_id p =? u_id user); [|exact IH].
  repeat split; tauto.
Qed.

Lemma dispatch_reminder_opt_in today user p p' new_quizzes reminders_sent k :
  same_but_opt_in p p' ->
  dispatch_reminder W today user (Some p) new_quizzes reminders_sent k
  = dispatch_reminder W today user (Some p') new_quizzes reminders_sent k.
Proof.
  intros (_ & _ & Htype & _ & Hurl & Hphone).
  unfold dispatch_reminder, resolve_notification_type.
  rewrite Htype, Hurl, Hphone. reflexivity.
Qed.

Lemma reminder_step_opt_in today upcoming_quizzes user reminders_sent k :
  reminder_step W db today upcoming_quizzes user reminders_sent k
  = reminder_step W db' today upcoming_quizzes user reminders_sent k.
Proof using Hdiff.
  pose proof (user_pref_of_opt_in user) as Hpref. tables.
  unfold reminder_step, new_quizzes_for. rewrite Hscores.
  destruct (is_empty _); [reflexivity|].
  apply bind_cong; [reflexivity|]. intros now k1.
  destruct (user_pref_of db user) as [p|], (user_pref_of db' user) as [p'|];
    try contradiction; [|reflexivity].
  cbn [resolve_reminder_time].
  replace (reminder_time p') with (reminder_time p) by apply Hpref.
  destruct (negb _); [reflexivity|].
  apply dispatch_reminder_opt_in, Hpref.
Qed.

Lemma send_daily_reminders_opt_in k :
  send_daily_reminders W db k = send_daily_reminders W db' k.
Proof using Hdiff.
  unfold send_daily_reminders. apply try_except_cong.
  apply bind_cong; [reflexivity|]. intros t k1. cbv zeta.
  apply bind_cong; [reflexivity|]. intros now k2.
  apply bind_cong; [reflexivity|]. intros recent_date k3.
  apply bind_cong; [|reflexivity].
  replace (inactive_users_query db' recent_date)
    with (inactive_users_query db recent_date)
    by (unfold inactive_users_query; tables; rewrite Husers; reflexivity).
  replace (upcoming_quizzes_query W db' (dt_date t))
    with (upcoming_quizzes_query W db (dt_date t))
    by (unfold upcoming_quizzes_query; tables; rewrite Hquizzes; reflexivity).
  apply for_each_cong. intros. apply reminder_step_opt_in.
Qed.

Lemma attempt_detail_of_opt_in a : attempt_detail_of db a = attempt_detail_of db' a.
Proof using Hdiff.
  tables. unfold attempt_detail_of, Quiz_get, Chapter_get, Subject_get.
  rewrite Hquizzes, Hchapters, Hsubjects. reflexivity.
Qed.

Lemma user_rankings_of_opt_in attempts acc :
  user_rankings_of db attempts acc = user_rankings_of db' attempts acc.
Proof using Hdiff.
  tables. revert acc. induction attempts as [|a attempts IH]; intros acc; simpl;
    [reflexivity|].
  unfold Quiz_get, rank_for_attempt, higher_scores, total_attempts_for_quiz.
  rewrite Hquizzes, Hscores.
  destruct (find _ (quizzes db')); [apply IH | reflexivity].
Qed.

Lemma report_step_opt_in last_month first_day user acc k :
  report_step W db last_month first_day user acc k
  = report_step W db' last_month first_day user acc k.
Proof using Hdiff.
  unfold report_step.
  replace (monthly_attempts db' user last_month first_day)
    with (monthly_attempts db user last_month first_day)
    by (unfold monthly_attempts; tables; rewrite Hscores; reflexivity).
  destruct (is_empty _); [reflexivity|].
  apply bind_cong; [reflexivity|]. intros avg k1.
  apply bind_cong.
  { unfold lift. rewrite (mapE_cong _ _ _ attempt_detail_of_opt_in). reflexivity. }
  intros details k2.
  apply bind_cong; [|reflexivity].
  unfold lift. rewrite user_rankings_of_opt_in. reflexivity.
Qed.

Lemma send_monthly_reports_opt_in k :
  send_monthly_reports W db k = send_monthly_reports W db' k.
Proof using Hdiff.
  unfold send_monthly_reports. apply try_except_cong.
  apply bind_cong; [reflexivity|]. intros t k1. cbv zeta.
  apply bind_cong; [reflexivity|]. intros [last_month first_day] k2.
  replace (report_users db') with (report_users db)
    by (unfold report_users; tables; rewrite Husers; reflexivity).
  apply bind_cong; [|reflexivity].
  apply for_each_cong. intros. apply report_step_opt_in.
Qed.

End OptIn.

(** C9. When two states differ only in the values of
    [receive_daily_reminders] and [receive_monthly_reports], the daily
    reminder job and the monthly report job run identically on both:
    same calls on the mail, webhook and SMS transports, same returned
    summary (and count), same exception if any. *)
Theorem opt_in_flags_are_ignored (W : World) (db db' : DB) (k : nat) :
  differ_only_in_opt_in db db' ->
  send_daily_reminders W db k = send_daily_reminders W db' k
  /\ send_monthly_reports W db k = send_monthly_reports W db' k.
Proof.
  intros Hdiff. split.
  - apply send_daily_reminders_opt_in, Hdiff.
  - apply send_monthly_reports_opt_in, Hdiff.
Qed.

(** Bob, who opted out of both, is mailed the daily reminder all the same. *)
Lemma opt_in_flags_are_ignored_witness :
  differ_only_in_opt_in sample_db (sample_db_with [bob_pref_opted_in])
  /\ receive_daily_reminders bob_pref = false
  /\ send_daily_reminders (calm_world (at_hour 2024 3 1 18) stable_order) sample_db 0%nat
     = send_daily_reminders (calm_world (at_hour 2024 3 1 18) stable_order)
         (sample_db_with [bob_pref_opted_in]) 0%nat
  /\ (exists m, In (MailSend m)
                  (calls (send_daily_reminders
                            (calm_world (at_hour 2024 3 1 18) stable_order) sample_db 0%nat))
                /\ recipients m = [username bob]).
Proof.
  assert (differ_only_in_opt_in sample_db (sample_db_with [bob_pref_opted_in])) as Hdiff.
  { repeat split; try reflexivity.
    constructor; [|constructor]. repeat split; reflexivity. }
  split; [exact Hdiff|]. split; [reflexivity|].
  split.
  - exact (proj1 (opt_in_flags_are_ignored
                    (calm_world (at_hour 2024 3 1 18) stable_order)
                    sample_db (sample_db_with [bob_pref_opted_in]) 0%nat Hdiff)).
  - eexists. split; [right; left; reflexivity | reflexivity].
Defined.

(** ** Where the calls of a composed job come from *)

Lemma calls_bind {A B} (m : M A) (f : A -> M B) k e :
  In e (calls (bind m f k)) ->
  In e (calls (m k)) \/ exists a k1, outcome (m k) = inr a /\ In e (calls (f a k1)).
Proof.
  unfold bind, calls, outcome.
  destruct (m k) as [[[x|a] k1] ev]; simpl; [tauto|].
  destruct (f a k1) as [[r k2] ev'] eqn:Hf; simpl.
  intros Hin. apply in_app_or in Hin. destruct Hin as [Hin | Hin]; [tauto|].
  right. exists a, k1. rewrite Hf. simpl. tauto.
Qed.

Lemma calls_try_except {A} (m : M A) (h : exn -> M A) k e :
  In e (calls (try_except m h k)) ->
  In e (calls (m k)) \/ exists x k1, outcome (m k) = inl x /\ In e (calls (h x k1)).
Proof.
  unfold try_except, calls, outcome.
  destruct (m k) as [[[x|a] k1] ev]; simpl; [|tauto].
  destruct (h x k1) as [[r k2] ev'] eqn:Hh; simpl.
  intros Hin. apply in_app_or in Hin. destruct Hin as [Hin | Hin]; [tauto|].
  right. exists x, k1. rewrite Hh. simpl. tauto.
Qed.

Lemma calls_for_each {A S} (body : A -> S -> M S) (P : A -> event -> Prop) :
  (forall x acc k e, In e (calls (body x acc k)) -> P x e) ->
  forall l acc k e, In e (calls (for_each l body acc k)) ->
                    exists x, In x l /\ P x e.
Proof.
  intros Hbody. induction l as [|x l IH]; intros acc k e; simpl.
  - intros [].
  - intros Hin. apply calls_bind in Hin.
    destruct Hin as [Hin | (acc' & k1 & _ & Hin)].
    + exists x. split; [left; reflexivity | eapply Hbody, Hin].
    + destruct (IH _ _ _ Hin) as (y & Hy & HP). exists y. split; [right|]; assumption.
Qed.

Lemma calls_lift {A} (r : exn + A) k e : ~ In e (calls (lift r k)).
Proof. intros []. Qed.

Lemma outcome_try_except_reraise {A} (m : M A) (log : exn -> M unit) k a :
  outcome (try_except m (fun e => log e ;;; raise e) k) = inr a ->
  outcome (m k) = inr a.
Proof.
  unfold try_except, bind, raise, outcome.
  destruct (m k) as [[[x|a'] k1] ev]; simpl; [|tauto].
  destruct (log x k1) as [[[y|[]] k2] ev']; simpl; discriminate.
Qed.

Lemma outcome_bind {A B} (m : M A) (f : A -> M B) k b :
  outcome (bind m f k) = inr b ->
  exists a k1, outcome (m k) = inr a /\ outcome (f a k1) = inr b.
Proof.
  unfold bind, outcome.
  destruct (m k) as [[[x|a] k1] ev]; simpl; [discriminate|].
  destruct (f a k1) as [[r k2] ev'] eqn:Hf; simpl.
  intros ->. exists a, k1. rewrite Hf. split; reflexivity.
Qed.

(** ** The monthly report: who is mailed, what is counted *)

Lemma report_step_calls W db last_month first_day user acc k e :
  In e (calls (report_step W db last_month first_day user acc k)) ->
  exists m, e = MailSend m
            /\ monthly_attempts db user last_month first_day <> []
            /\ recipients m = [username user]
            /\ template_user (html m) = user.
Proof.
  unfold report_step.
  destruct (monthly_attempts db user last_month first_day) as [|a attempts] eqn:Hattempts;
    cbn [is_empty]; [intros []|].
  intros Hin.
  apply calls_bind in Hin. destruct Hin as [Hin | (avg & k1 & _ & Hin)];
    [destruct (calls_lift _ _ _ Hin)|].
  apply calls_bind in Hin. destruct Hin as [Hin | (details & k2 & _ & Hin)];
    [destruct (calls_lift _ _ _ Hin)|].
  apply calls_bind in Hin. destruct Hin as [Hin | (rankings & k3 & _ & Hin)];
    [destruct (calls_lift _ _ _ Hin)|].
  destruct Hin as [<- | []].
  eexists. split; [reflexivity|]. split; [discriminate|]. split; reflexivity.
Qed.

(** C8. Every report email of a monthly run goes to a user of role
    [user] who has at least one attempt in the previous month, so a user
    with no attempt there is sent nothing; and when the run returns, its
    summary counts all the users of role [user], mailed or not. *)
Theorem monthly_reports_skip_idle_count_all (W : World) (db : DB) (k : nat) :
  (forall e, In e (calls (send_monthly_reports W db k)) ->
     (exists msg, e = LogError msg)
     \/ exists m user last_month first_day,
          e = MailSend m
          /\ month_bounds (dt_date (clock W k)) = inr (last_month, first_day)
          /\ In user (users db) /\ role user = "user"
          /\ monthly_attempts db user last_month first_day <> []
          /\ recipients m = [username user]
          /\ template_user (html m) = user)
  /\ (forall summary, outcome (send_monthly_reports W db k) = inr summary ->
        summary = "Monthly reports sent to " ++ pretty (len (report_users db)) ++ " users")
  /\ (forall user, In user (report_users db) <-> In user (users db) /\ role user = "user").
Proof.
  assert (forall user, In user (report_users db) <-> In user (users db) /\ role user = "user")
    as Husers.
  { intros user. unfold report_users. rewrite filter_In.
    destruct (String.eqb_spec (role user) "user"); intuition congruence. }
  split; [|split; [|exact Husers]].
  - intros e Hin. unfold send_monthly_reports, monthly_reports_block in Hin.
    apply calls_try_except in Hin. destruct Hin as [Hin | (x & k1 & _ & Hin)].
    + right.
      apply calls_bind in Hin. destruct Hin as [[] | (t & k1 & Ht & Hin)].
      injection Ht as <-.
      apply calls_bind in Hin. destruct Hin as [[] | (bounds & k2 & Hb & Hin)].
      unfold lift, outcome in Hb. simpl in Hb.
      destruct bounds as [last_month first_day].
      apply calls_bind in Hin. destruct Hin as [Hin | (u & k3 & _ & [])].
      apply (calls_for_each _ (fun user e =>
               exists m, e = MailSend m
                         /\ monthly_attempts db user last_month first_day <> []
                         /\ recipients m = [username user]
                         /\ template_user (html m) = user)) in Hin.
      * destruct Hin as (user & Huser & m & -> & Hatt & Hrec & Htpl).
        apply Husers in Huser.
        exists m, user, last_month, first_day. tauto.
      * intros user acc k' e'. apply report_step_calls.
    + apply calls_bind in Hin. destruct Hin as [[] | (u & k2 & Hlog & _)].
      discriminate Hlog.
  - intros summary Hout. unfold send_monthly_reports, monthly_reports_block in Hout.
    apply outcome_try_except_reraise in Hout.
    apply outcome_bind in Hout. destruct Hout as (t & k1 & _ & Hout).
    apply outcome_bind in Hout. destruct Hout as ([last_month first_day] & k2 & _ & Hout).
    apply outcome_bind in Hout. destruct Hout as (u & k3 & _ & Hout).
    injection Hout as <-. reflexivity.
Qed.

(** Run on 1 March 2024: Alice and Carol are mailed, Bob has no
    attempt in February and is not, and the summary counts three users. *)
Lemma monthly_reports_skip_idle_count_all_witness :
  outcome (send_monthly_reports (calm_world (noon 2024 3 1) stable_order) sample_db 0%nat)
    = inr "Monthly reports sent to 3 users"
  /\ monthly_attempts sample_db bob (mk_date 2024 2 1) (mk_date 2024 3 1) = []
  /\ map (fun e => match e with MailSend m => recipients m | _ => [] end)
         (calls (send_monthly_reports (calm_world (noon 2024 3 1) stable_order)
                   sample_db 0%nat))
     = [[username alice]; [username carol]].
Proof.
  split; [|split; reflexivity].
  rewrite (proj1 (proj2 (monthly_reports_skip_idle_count_all
                           (calm_world (noon 2024 3 1) stable_order) sample_db 0%nat))
             "Monthly reports sent to 3 users" eq_refl).
  reflexivity.
Defined.

(** ** The attempts export *)

(** C7. The export for a user id with no User row raises the
    [ValueError] "User with ID <id> not found", records the job state
    FAILURE with that message, and touches no file. In general a failed
    export ends by recording FAILURE with the error's message, and a file
    is opened and written only once every attempt of the user has been
    turned into a row: what is written is the header followed by all the
    rows. *)
Theorem export_unknown_user_fails_without_file (W : World) (db : DB) (user_id : Z)
    (k : nat) :
  (User_get db user_id = None ->
     export_user_attempts_csv W db user_id k
     = (inl (ValueError ("User with ID " ++ pretty user_id ++ " not found")), k,
        [UpdateState "FAILURE" ("User with ID " ++ pretty user_id ++ " not found")]))
  /\ (forall e, outcome (export_user_attempts_csv W db user_id k) = inl e ->
        exists before,
          calls (export_user_attempts_csv W db user_id k)
          = (before ++ [UpdateState "FAILURE" (exn_msg e)])%list)
  /\ (forall path, In (FileOpenW path) (calls (export_user_attempts_csv W db user_id k)) ->
        exists user rows,
          User_get db user_id = Some user
          /\ mapE (export_row db) (user_attempts db user_id) = inr rows)
  /\ (forall path content,
        In (FileWrite path content) (calls (export_user_attempts_csv W db user_id k)) ->
        exists rows,
          mapE (export_row db) (user_attempts db user_id) = inr rows
          /\ content = export_header :: rows).
Proof.
  unfold export_user_attempts_csv, not_found_message.
  destruct (User_get db user_id) as [user|].
  2:{ split; [reflexivity|]. split.
      - intros e [= <-]. exists []. reflexivity.
      - split; intros; cbn in *; intuition discriminate. }
  split; [discriminate|].
  destruct (mapE (export_row db) (user_attempts db user_id)) as [x|rows] eqn:Hrows.
  { split.
    - intros e [= <-]. exists []. reflexivity.
    - split; intros; cbn in *; intuition discriminate. }
  unfold try_except, bind, lift, datetime_now, call, emit, raise, ret, outcome, calls.
  cbn [fst snd].
  set (path := ("/tmp/" ++ _)%string).
  destruct (fs_open W (S k) path) as [x|].
  { cbn. split.
    - intros e [= <-]. exists [FileOpenW path]. reflexivity.
    - split; intros; [eauto|]. intuition discriminate. }
  destruct (fs_write W (S (S k)) path) as [x|].
  { cbn. split.
    - intros e [= <-].
      exists [FileOpenW path; FileWrite path (export_header :: rows)]. reflexivity.
    - split; intros; [eauto|].
      destruct H as [H | [H | [H | []]]]; try discriminate.
      injection H as _ <-. eauto. }
  cbn. split; [discriminate|].
  split; intros; [eauto|].
  destruct H as [H | [H | []]]; try discriminate.
  injection H as _ <-. eauto.
Qed.

(** User 7 does not exist: the export fails with the message and no
    file; user 1 exists: the file holds the header and one row per attempt. *)
Lemma export_unknown_user_fails_without_file_witness :
  User_get sample_db 7 = None
  /\ export_user_attempts_csv (calm_world (noon 2024 3 1) stable_order) sample_db 7 0%nat
     = (inl (ValueError "User with ID 7 not found"), 0%nat,
        [UpdateState "FAILURE" "User with ID 7 not found"])
  /\ (exists path rows,
        calls (export_user_attempts_csv (calm_world (noon 2024 3 1) stable_order)
                 sample_db 1 0%nat)
        = [FileOpenW path; FileWrite path (export_header :: rows)]
        /\ length rows = 2%nat).
Proof.
  split; [reflexivity|]. split.
  - exact (proj1 (export_unknown_user_fails_without_file
                    (calm_world (noon 2024 3 1) stable_order) sample_db 7 0%nat) eq_refl).
  - eexists. eexists. split; reflexivity.
Defined.

(** ** Sample runs of the daily job *)

(** At 18:00 on 1 March 2024 the three inactive users are mailed. *)
Example daily_run_at_18 :
  outcome (send_daily_reminders (calm_world (at_hour 2024 3 1 18) stable_order)
             sample_db 0%nat) = inr "Daily reminders sent to 3 users"
  /\ map (fun e => match e with MailSend m => recipients m | _ => [] end)
         (calls (send_daily_reminders (calm_world (at_hour 2024 3 1 18) stable_order)
                   sample_db 0%nat))
     = [[username alice]; [username bob]; [username carol]].
Proof. split; reflexivity. Qed.

(** At 00:00 nobody is, Bob included, whose preferred hour is 0. *)
Example daily_run_at_midnight :
  send_daily_reminders (calm_world (at_hour 2024 3 4 0) stable_order) sample_db 0%nat
  = (inr "Daily reminders sent to 0 users", 5%nat, []).
Proof. reflexivity. Qed.

(** Before 4 January of year 1 the inactivity threshold cannot be
    computed: the subtraction raises [OverflowError], the handler in
    turn fails on [current_app], and that failure is what leaves the job. *)
Example daily_run_year_one :
  minus_days 3 (at_hour 1 1 2 18) = inl (Exn "OverflowError" "date value out of range")
  /\ send_daily_reminders (calm_world (at_hour 1 1 2 18) stable_order) sample_db 0%nat
     = (inl working_outside_of_application_context, 2%nat, []).
Proof. split; reflexivity. Qed.

(** ** The SMS channel *)

(** X1. The SMS channel returns a boolean and never raises. When one of
    the three Twilio settings is missing or empty it logs a warning and
    returns [False] without calling Twilio; otherwise it calls Twilio
    once, from the configured number, and returns [True] when the call
    returns and [False], after logging the error, when it raises. *)
Theorem sms_channel_absorbs_failures (W : World) (phone_number message : string)
    (k : nat) :
  (exists b, outcome (send_sms_notification W phone_number message k) = inr b)
  /\ (truthy_str (TWILIO_ACCOUNT_SID W) && truthy_str (TWILIO_AUTH_TOKEN W)
      && truthy_str (TWILIO_PHONE_NUMBER W) = false ->
        send_sms_notification W phone_number message k
        = (inr false, k, [LogWarning "Twilio credentials not configured"]))
  /\ (truthy_str (TWILIO_ACCOUNT_SID W) && truthy_str (TWILIO_AUTH_TOKEN W)
      && truthy_str (TWILIO_PHONE_NUMBER W) = true ->
        exists from_,
          TWILIO_PHONE_NUMBER W = Some from_
          /\ (twilio W k message from_ phone_number = None ->
                send_sms_notification W phone_number message k
                = (inr true, S k, [TwilioCreate message from_ phone_number]))
          /\ (forall e, twilio W k message from_ phone_number = Some e ->
                send_sms_notification W phone_number message k
                = (inr false, S k,
                   [TwilioCreate message from_ phone_number;
                    LogError ("Twilio SMS error: " ++ exn_msg e)]))).
Proof.
  unfold send_sms_notification.
  destruct (truthy_str (TWILIO_ACCOUNT_SID W) && truthy_str (TWILIO_AUTH_TOKEN W)
            && truthy_str (TWILIO_PHONE_NUMBER W)) eqn:Hcred; cbn [negb].
  - apply andb_true_iff in Hcred. destruct Hcred as (_ & Hfrom).
    destruct (TWILIO_PHONE_NUMBER W) as [from_|] eqn:Hnum; [|discriminate].
    assert (or_str (Some from_) "" = from_) as Hor.
    { unfold truthy_str in Hfrom. unfold or_str.
      destruct (String.eqb from_ ""); [discriminate | reflexivity]. }
    cbv zeta. rewrite Hor.
    unfold try_except, bind, call, ret, logger_error, emit, outcome.
    split; [destruct (twilio W k message from_ phone_number); cbn; eauto|].
    split; [discriminate|]. intros _. exists from_. split; [reflexivity|].
    split; [intros ->; reflexivity | intros e ->; reflexivity].
  - split; [cbn; eauto|]. split; [reflexivity | discriminate].
Qed.

(** With the settings of [config.py], which has no Twilio entry, nothing
    is sent; with Twilio configured the message goes out. *)
Lemma sms_channel_absorbs_failures_witness :
  send_sms_notification (calm_world (noon 2024 3 1) stable_order) "+15551234" "hi" 0%nat
  = (inr false, 0%nat, [LogWarning "Twilio credentials not configured"])
  /\ send_sms_notification (with_twilio (calm_world (noon 2024 3 1) stable_order) None)
       "+15551234" "hi" 0%nat
     = (inr true, 1%nat, [TwilioCreate "hi" "+15550000" "+15551234"])
  /\ send_sms_notification
       (with_twilio (calm_world (noon 2024 3 1) stable_order) (Some connection_refused))
       "+15551234" "hi" 0%nat
     = (inr false, 1%nat,
        [TwilioCreate "hi" "+15550000" "+15551234";
         LogError "Twilio SMS error: connection refused"]).
Proof.
  split.
  - exact (proj1 (proj2 (sms_channel_absorbs_failures
                           (calm_world (noon 2024 3 1) stable_order) "+15551234" "hi" 0%nat))
             eq_refl).
  - split; reflexivity.
Defined.

(** ** The webhook payload *)

(** X2. When a title or a non-empty list of sections is given, the
    webhook channel posts a card and the message text is not part of what
    is posted: two calls that differ only in the text behave alike. The
    daily job always gives a title, so on the gchat channel the greeting
    with the user's name is never sent: the dispatch does the same for any
    two users with that preference row. *)
Theorem webhook_card_leaves_text_out (W : World) (url : option string)
    (message_text message_text' : string) (title : option string)
    (sections : option (list json)) (today : date) (user user' : User)
    (p : UserPreference) (new_quizzes : list Quiz) (reminders_sent : Z) (k : nat) :
  (truthy_str title || truthy_list sections = true ->
     send_gchat_webhook W url message_text title sections k
     = send_gchat_webhook W url message_text' title sections k)
  /\ (resolve_notification_type (Some p) = "gchat" ->
      truthy_str (webhook_url p) = true ->
        dispatch_reminder W today user (Some p) new_quizzes reminders_sent k
        = dispatch_reminder W today user' (Some p) new_quizzes reminders_sent k).
Proof.
  split.
  - intros Hcard. unfold send_gchat_webhook. rewrite Hcard. reflexivity.
  - intros Hg Hurl. unfold dispatch_reminder. rewrite Hg, Hurl.
    change (String.eqb "gchat" "email") with false.
    change (String.eqb "gchat" "gchat") with true. cbv iota zeta.
    unfold send_gchat_webhook. reflexivity.
Qed.

(** The card posted for Dave says nothing of him: it is the card posted
    for Alice, and it has the title and two sections only. *)
Lemma webhook_card_leaves_text_out_witness :
  calls (send_gchat_webhook (calm_world (noon 2024 3 1) stable_order)
           (Some "https://chat.example/room") "Hi Dave, you have 1 new quizzes available!"
           (Some "Quiz Master Daily Reminder") None 0%nat)
  = [HttpPost "https://chat.example/room"
       (JObj [("cards", JArr [JObj [("header",
                                     JObj [("title", JStr "Quiz Master Daily Reminder")]);
                                    ("sections", JArr [])]])])]
  /\ dispatch_reminder (calm_world (at_hour 2024 3 1 9) stable_order) (mk_date 2024 3 1)
       dave (Some dave_pref) [quiz_a] 0 0%nat
     = dispatch_reminder (calm_world (at_hour 2024 3 1 9) stable_order) (mk_date 2024 3 1)
         alice (Some dave_pref) [quiz_a] 0 0%nat.
Proof.
  pose proof (webhook_card_leaves_text_out (calm_world (at_hour 2024 3 1 9) stable_order)
                (Some "https://chat.example/room")
                "Hi Dave, you have 1 new quizzes available!" ""
                (Some "Quiz Master Daily Reminder") None (mk_date 2024 3 1) dave alice
                dave_pref [quiz_a] 0 0%nat) as (_ & Hsame).
  split; [reflexivity | exact (Hsame eq_refl eq_refl)].
Defined.

(** ** The dispatch of a reminder *)

Lemma dispatch_not_email W today user user_pref new_quizzes reminders_sent k :
  String.eqb (resolve_notification_type user_pref) "email" = false ->
  String.eqb (resolve_notification_type user_pref) "gchat" = false ->
  String.eqb (resolve_notification_type user_pref) "sms" = false ->
  dispatch_reminder W today user user_pref new_quizzes reminders_sent k
  = (inr reminders_sent, k, []).
Proof.
  intros He Hg Hs. unfold dispatch_reminder. rewrite He, Hg, Hs. reflexivity.
Qed.

(** X3. A user whose preference names a channel other than email, gchat
    or sms, or names gchat without a webhook URL, or sms without a phone
    number, is passed over in silence when the hour comes: nothing is
    sent, nothing is logged, the count is unchanged and nothing is raised. *)
Theorem dispatch_passes_over_in_silence (W : World) (today : date) (user : User)
    (p : UserPreference) (new_quizzes : list Quiz) (reminders_sent : Z) (k : nat) :
  (resolve_notification_type (Some p) <> "email"
   /\ resolve_notification_type (Some p) <> "gchat"
   /\ resolve_notification_type (Some p) <> "sms")
  \/ (resolve_notification_type (Some p) = "gchat" /\ truthy_str (webhook_url p) = false)
  \/ (resolve_notification_type (Some p) = "sms" /\ truthy_str (phone_number p) = false) ->
  dispatch_reminder W today user (Some p) new_quizzes reminders_sent k
  = (inr reminders_sent, k, []).
Proof.
  intros [(He & Hg & Hs) | [(Hg & Hurl) | (Hs & Hphone)]].
  - apply dispatch_not_email; apply String.eqb_neq; assumption.
  - unfold dispatch_reminder. rewrite Hg, Hurl. reflexivity.
  - unfold dispatch_reminder. rewrite Hs, Hphone. reflexivity.
Qed.

(** Frank asked for "push" and has both a webhook and a phone number. *)
Lemma dispatch_passes_over_in_silence_witness :
  resolve_notification_type (Some frank_pref) = "push"
  /\ dispatch_reminder (with_twilio (calm_world (at_hour 2024 3 1 9) stable_order) None)
       (mk_date 2024 3 1) dave (Some frank_pref) [quiz_a] 0 0%nat
     = (inr 0, 0%nat, []).
Proof.
  split; [reflexivity|].
  apply dispatch_passes_over_in_silence. left.
  repeat split; discriminate.
Defined.

(** X4. For a user on the gchat channel with a webhook URL, the dispatch
    posts exactly once to that URL, with a payload that does not depend
    on the answer, and nothing is raised. When the post is answered, that
    post is the only call, and the user is counted exactly when the
    status is 200. When the post fails, the error is logged once after
    it and the user is not counted. *)
Theorem dispatch_gchat_counts_status_200 (W : World) (today : date) (user : User)
    (p : UserPreference) (new_quizzes : list Quiz) (reminders_sent : Z) (k : nat)
    (url : string) :
  resolve_notification_type (Some p) = "gchat" ->
  webhook_url p = Some url -> url <> "" ->
  exists payload,
    (forall status, http W k url payload = inr status ->
       dispatch_reminder W today user (Some p) new_quizzes reminders_sent k
       = (inr (if status =? 200 then reminders_sent + 1 else reminders_sent), S k,
          [HttpPost url payload]))
    /\ (forall e, http W k url payload = inl e ->
          dispatch_reminder W today user (Some p) new_quizzes reminders_sent k
          = (inr reminders_sent, S k,
             [HttpPost url payload;
              LogError ("Google Chat webhook error: " ++ exn_msg e)])).
Proof.
  intros Hg Hurl Hne. unfold dispatch_reminder. rewrite Hg, Hurl.
  change (String.eqb "gchat" "email") with false.
  change (String.eqb "gchat" "gchat") with true. cbv iota.
  assert (truthy_str (Some url) = true) as Htruthy.
  { unfold truthy_str. destruct (String.eqb_spec url ""); [contradiction | reflexivity]. }
  rewrite Htruthy. unfold send_gchat_webhook. rewrite Htruthy. cbn [negb].
  assert (or_str (Some url) "" = url) as ->.
  { unfold or_str. destruct (String.eqb_spec url ""); [contradiction | reflexivity]. }
  change (truthy_str (Some "Quiz Master Daily Reminder")) with true.
  cbn [orb]. cbv zeta.
  match goal with
  | |- context [requests_post W url ?pl] => set (payload := pl)
  end.
  unfold try_except, bind, requests_post, ret, logger_error, emit.
  exists payload. split.
  - intros status ->. cbn. destruct (status =? 200); reflexivity.
  - intros e ->. reflexivity.
Qed.

(** Dave's room answers 200 and he is counted; when it answers 503 he is
    not, and when the connection is refused the error is logged. *)
Lemma dispatch_gchat_counts_status_200_witness :
  outcome (dispatch_reminder (calm_world (at_hour 2024 3 1 9) stable_order)
             (mk_date 2024 3 1) dave (Some dave_pref) [quiz_a] 0 0%nat) = inr 1
  /\ (exists payload,
        dispatch_reminder
          (with_http (calm_world (at_hour 2024 3 1 9) stable_order) (inr 503))
          (mk_date 2024 3 1) dave (Some dave_pref) [quiz_a] 0 0%nat
        = (inr 0, 1%nat, [HttpPost "https://chat.example/room" payload]))
  /\ (exists payload,
        dispatch_reminder
          (with_http (calm_world (at_hour 2024 3 1 9) stable_order)
             (inl connection_refused))
          (mk_date 2024 3 1) dave (Some dave_pref) [quiz_a] 0 0%nat
        = (inr 0, 1%nat,
           [HttpPost "https://chat.example/room" payload;
            LogError "Google Chat webhook error: connection refused"])).
Proof.
  split; [reflexivity|]. split.
  - destruct (dispatch_gchat_counts_status_200
                (with_http (calm_world (at_hour 2024 3 1 9) stable_order) (inr 503))
                (mk_date 2024 3 1) dave dave_pref [quiz_a] 0 0%nat
                "https://chat.example/room" eq_refl eq_refl)
      as (payload & Hanswered & _); [discriminate|].
    exists payload. exact (Hanswered 503 eq_refl).
  - destruct (dispatch_gchat_counts_status_200
                (with_http (calm_world (at_hour 2024 3 1 9) stable_order)
                   (inl connection_refused))
                (mk_date 2024 3 1) dave dave_pref [quiz_a] 0 0%nat
                "https://chat.example/room" eq_refl eq_refl)
      as (payload & _ & Hfailed); [discriminate|].
    exists payload. exact (Hfailed connection_refused eq_refl).
Defined.

(** X5. For a user on the sms channel with a phone number, when one of
    the Twilio settings is missing (as with [config.py], which has no
    Twilio entry) the dispatch only logs a warning: no SMS goes out and
    the user is not counted. *)
Theorem dispatch_sms_needs_twilio_settings (W : World) (today : date) (user : User)
    (p : UserPreference) (new_quizzes : list Quiz) (reminders_sent : Z) (k : nat) :
  resolve_notification_type (Some p) = "sms" ->
  truthy_str (phone_number p) = true ->
  truthy_str (TWILIO_ACCOUNT_SID W) && truthy_str (TWILIO_AUTH_TOKEN W)
  && truthy_str (TWILIO_PHONE_NUMBER W) = false ->
  dispatch_reminder W today user (Some p) new_quizzes reminders_sent k
  = (inr reminders_sent, k, [LogWarning "Twilio credentials not configured"]).
Proof.
  intros Hs Hphone Hcred. unfold dispatch_reminder. rewrite Hs, Hphone.
  change (String.eqb "sms" "email") with false.
  change (String.eqb "sms" "gchat") with false.
  change (String.eqb "sms" "sms") with true. cbv iota.
  unfold send_sms_notification. rewrite Hcred. reflexivity.
Qed.

Lemma dispatch_sms_needs_twilio_settings_witness :
  dispatch_reminder (calm_world (at_hour 2024 3 1 9) stable_order) (mk_date 2024 3 1)
    dave (Some erin_pref) [quiz_a] 0 0%nat
  = (inr 0, 0%nat, [LogWarning "Twilio credentials not configured"]).
Proof.
  exact (dispatch_sms_needs_twilio_settings
           (calm_world (at_hour 2024 3 1 9) stable_order) (mk_date 2024 3 1)
           dave erin_pref [quiz_a] 0 0%nat eq_refl eq_refl eq_refl).
Defined.

(** ** The daily job as a whole *)

Lemma filter_nil_all {A} (p : A -> bool) (l : list A) :
  (forall x, In x l -> p x = false) -> List.filter p l = [].
Proof.
  induction l as [|x l IH]; intros H; simpl; [reflexivity|].
  rewrite (H x) by (left; reflexivity). apply IH. intros y Hy. apply H. right. exact Hy.
Qed.

Lemma reminder_step_no_new W db today upcoming_quizzes user reminders_sent k :
  new_quizzes_for db upcoming_quizzes user = [] ->
  reminder_step W db today upcoming_quizzes user reminders_sent k
  = (inr reminders_sent, k, []).
Proof. intros H. unfold reminder_step. rewrite H. reflexivity. Qed.

Lemma for_each_idle {A S} (body : A -> S -> M S) (l : list A) :
  (forall x acc k, In x l -> body x acc k = (inr acc, k, [])) ->
  forall acc k, for_each l body acc k = (inr acc, k, []).
Proof.
  induction l as [|x l IH]; intros Hbody acc k; simpl; [reflexivity|].
  unfold bind. rewrite Hbody by (left; reflexivity).
  rewrite IH by (intros; apply Hbody; right; assumption). reflexivity.
Qed.

(** X6. A user who has an attempt on every upcoming quiz is passed over
    whatever the hour and the channel: nothing is sent, the count is
    unchanged, and not even the clock is read. *)
Theorem reminder_step_skips_users_with_nothing_new (W : World) (db : DB) (today : date)
    (upcoming_quizzes : list Quiz) (user : User) (reminders_sent : Z) (k : nat) :
  (forall q, In q upcoming_quizzes ->
     exists s, In s (scores db) /\ s_user_id s = u_id user /\ s_quiz_id s = q_id q) ->
  reminder_step W db today upcoming_quizzes user reminders_sent k
  = (inr reminders_sent, k, []).
Proof.
  intros Hall. apply reminder_step_no_new. unfold new_quizzes_for.
  apply filter_nil_all. intros q Hq.
  destruct (Hall q Hq) as (s & Hs & Huser & Hquiz).
  apply negb_false_iff, existsb_exists. exists (s_quiz_id s). split.
  - apply in_map, filter_In. split; [exact Hs | apply Z.eqb_eq, Huser].
  - apply Z.eqb_eq. symmetry. exact Hquiz.
Qed.

(** Alice has taken quiz 1; with quiz 1 alone upcoming she is passed over
    at 18:00, her hour. *)
Lemma reminder_step_skips_users_with_nothing_new_witness :
  reminder_step (calm_world (at_hour 2024 3 1 18) stable_order) sample_db
    (mk_date 2024 3 1) [quiz_a] alice 0 0%nat = (inr 0, 0%nat, []).
Proof.
  apply reminder_step_skips_users_with_nothing_new.
  intros q [<- | []]. exists (attempt 1 1 1 10 10 (noon 2024 2 10)).
  split; [left; reflexivity | split; reflexivity].
Defined.

(** X7. When no quiz is both active and dated today or later, the daily
    job contacts nobody and reports 0 users (the clock being late enough
    for the three-day threshold to exist). *)
Theorem daily_job_idle_without_upcoming_quizzes (W : World) (db : DB) (k : nat)
    (recent_date : datetime) :
  engine_sorts W ->
  (forall q, In q (quizzes db) ->
     is_active q && date_leb (dt_date (clock W k)) (date_of_quiz q) = false) ->
  minus_days 3 (clock W (S k)) = inr recent_date ->
  send_daily_reminders W db k = (inr "Daily reminders sent to 0 users", S (S k), []).
Proof.
  intros Hengine Hnone Hrecent.
  assert (upcoming_quizzes_query W db (dt_date (clock W k)) = []) as Hup.
  { unfold upcoming_quizzes_query. rewrite (filter_nil_all _ _ Hnone).
    destruct (Hengine []) as (Hperm & _).
    apply Permutation_nil in Hperm. rewrite Hperm. reflexivity. }
  unfold send_daily_reminders, daily_reminders_block, try_except, bind, datetime_now, lift.
  rewrite Hrecent, Hup.
  rewrite for_each_idle; [reflexivity|].
  intros user acc k' _. apply reminder_step_no_new.
  unfold new_quizzes_for. reflexivity.
Qed.

(** On 1 April 2024 every quiz of the sample database is past. *)
Lemma daily_job_idle_without_upcoming_quizzes_witness :
  send_daily_reminders (calm_world (at_hour 2024 4 1 18) stable_order) sample_db 0%nat
  = (inr "Daily reminders sent to 0 users", 2%nat, []).
Proof.
  apply (daily_job_idle_without_upcoming_quizzes
           (calm_world (at_hour 2024 4 1 18) stable_order) sample_db 0%nat
           (at_hour 2024 3 29 18)).
  - apply stable_order_sorts.
  - intros q [<- | [<- | [<- | []]]]; reflexivity.
  - reflexivity.
Defined.

(** The three ways a webhook call can end. *)
Lemma gchat_run_cases W webhook_url message_text title sections k :
  send_gchat_webhook W webhook_url message_text title sections k = (inr false, k, [])
  \/ exists url payload,
       webhook_url = Some url
       /\ ((exists b, send_gchat_webhook W webhook_url message_text title sections k
                      = (inr b, S k, [HttpPost url payload]))
           \/ (exists msg, send_gchat_webhook W webhook_url message_text title sections k
                           = (inr false, S k, [HttpPost url payload; LogError msg]))).
Proof.
  unfold send_gchat_webhook.
  destruct (truthy_str webhook_url) eqn:Htruthy; cbn [negb]; [|left; reflexivity].
  right. destruct webhook_url as [url|]; [|discriminate].
  assert (or_str (Some url) "" = url) as ->.
  { unfold truthy_str in Htruthy. unfold or_str.
    destruct (String.eqb url ""); [discriminate | reflexivity]. }
  cbv zeta.
  match goal with
  | |- context [requests_post W url ?pl] => exists url, pl; set (payload := pl)
  end.
  split; [reflexivity|].
  unfold try_except, bind, requests_post, ret, logger_error, emit.
  destruct (http W k url payload) as [e|status]; cbn; eauto.
Qed.

(** The three ways an SMS call can end. *)
Lemma sms_run_cases W phone_number message k :
  (exists msg, send_sms_notification W phone_number message k
               = (inr false, k, [LogWarning msg]))
  \/ exists from_,
       send_sms_notification W phone_number message k
       = (inr true, S k, [TwilioCreate message from_ phone_number])
       \/ exists msg, send_sms_notification W phone_number message k
                      = (inr false, S k,
                         [TwilioCreate message from_ phone_number; LogError msg]).
Proof.
  unfold send_sms_notification.
  destruct (negb _); [left; eexists; reflexivity|].
  right. cbv zeta. exists (or_str (TWILIO_PHONE_NUMBER W) "").
  unfold try_except, bind, call, ret, logger_error, emit.
  destruct (twilio W k message _ phone_number); cbn; eauto.
Qed.

(** What one dispatch does: its transport calls reach the user, and the
    count grows by at most one, and only with a transport call. *)
Lemma dispatch_reminder_spec W today user user_pref new_quizzes reminders_sent k :
  (forall e, In e (calls (dispatch_reminder W today user user_pref new_quizzes
                            reminders_sent k)) ->
             transport_call e = true -> addressed_to user user_pref e)
  /\ (forall n, outcome (dispatch_reminder W today user user_pref new_quizzes
                           reminders_sent k) = inr n ->
        reminders_sent <= n <= reminders_sent + 1
        /\ n - reminders_sent
           <= transport_calls (calls (dispatch_reminder W today user user_pref new_quizzes
                                        reminders_sent k))).
Proof.
  set (P := fun m : M Z =>
         (forall e, In e (calls (m k)) -> transport_call e = true ->
                    addressed_to user user_pref e)
         /\ (forall n, outcome (m k) = inr n ->
               reminders_sent <= n <= reminders_sent + 1
               /\ n - reminders_sent <= transport_calls (calls (m k)))).
  change (P (dispatch_reminder W today user user_pref new_quizzes reminders_sent)).
  assert (P (ret reminders_sent)) as Hidle.
  { split; [intros e []|]. intros n [= <-]. unfold transport_calls, len. cbn. lia. }
  assert (forall b : bool,
            (if b then @ret Z (reminders_sent + 1) else ret reminders_sent)
            = ret (if b then reminders_sent + 1 else reminders_sent)) as Hif
    by (intros []; reflexivity).
  unfold dispatch_reminder. cbv zeta.
  destruct (String.eqb (resolve_notification_type user_pref) "email").
  { unfold P, bind, mail_send, call, ret, outcome, calls, transport_calls, len.
    destruct (smtp W k _) as [x|]; cbn.
    - split; [|discriminate]. intros e [<- | []] _. split; reflexivity.
    - split; [intros e [<- | []] _; split; reflexivity|].
      intros n [= <-]. lia. }
  match goal with
  | |- P (if String.eqb _ "gchat" then _ else ?sms) => set (sms_branch := sms)
  end.
  assert (P sms_branch) as Hsms.
  { unfold sms_branch.
    destruct (String.eqb (resolve_notification_type user_pref) "sms"); [|exact Hidle].
    destruct user_pref as [p|];
      [|split; [intros e [] | discriminate]].
    destruct (truthy_str (phone_number p)) eqn:Hphone; [|exact Hidle].
    destruct (phone_number p) as [phone|] eqn:Hp; [|discriminate].
    assert (or_str (Some phone) "" = phone) as ->.
    { unfold truthy_str in Hphone. unfold or_str.
      destruct (String.eqb phone ""); [discriminate | reflexivity]. }
    unfold P, bind, outcome, calls, transport_calls, len.
    match goal with
    | |- context [send_sms_notification W phone ?text k] =>
        destruct (sms_run_cases W phone text k)
          as [(msg & Hrun) | (from_ & [Hrun | (msg & Hrun)])];
        rewrite !Hrun; clear Hrun
    end; cbn.
    - split; [intros e [<- | []]; discriminate|]. intros n [= <-]. lia.
    - split; [|intros n [= <-]; lia].
      intros e [<- | []] _. cbn. eauto.
    - split; [|intros n [= <-]; lia].
      intros e [<- | [<- | []]]; [|discriminate]. intros _. cbn. eauto. }
  destruct (String.eqb (resolve_notification_type user_pref) "gchat"); [|exact Hsms].
  destruct user_pref as [p|]; [|split; [intros e [] | discriminate]].
  destruct (truthy_str (webhook_url p)) eqn:Hurl; [|exact Hsms].
  clear Hsms Hidle sms_branch.
  unfold P, bind, outcome, calls, transport_calls, len.
  match goal with
  | |- context [send_gchat_webhook W ?u ?t ?ti ?se k] =>
      destruct (gchat_run_cases W u t ti se k)
        as [Hrun | (url & payload & Hsome & [(b & Hrun) | (msg & Hrun)])];
      rewrite !Hrun; clear Hrun
  end; cbn.
  - split; [intros e []|]. intros n [= <-]. lia.
  - rewrite !Hif. cbn. split; [|intros n [= <-]; destruct b; cbn; lia].
    intros e [<- | []] _. cbn. eauto.
  - split; [|intros n [= <-]; lia].
    intros e [<- | [<- | []]]; [|discriminate]. intros _. cbn. eauto.
Qed.

Lemma transport_calls_app (ev ev' : list event) :
  transport_calls (ev ++ ev')%list = transport_calls ev + transport_calls ev'.
Proof.
  unfold transport_calls, len. rewrite List.filter_app, List.length_app. lia.
Qed.

Lemma reminder_step_spec W db today upcoming_quizzes user reminders_sent k :
  (forall e, In e (calls (reminder_step W db today upcoming_quizzes user reminders_sent k)) ->
             transport_call e = true ->
             new_quizzes_for db upcoming_quizzes user <> []
             /\ addressed_to user (user_pref_of db user) e)
  /\ (forall n, outcome (reminder_step W db today upcoming_quizzes user reminders_sent k)
                = inr n ->
        reminders_sent <= n <= reminders_sent + 1
        /\ n - reminders_sent
           <= transport_calls
                (calls (reminder_step W db today upcoming_quizzes user reminders_sent k))).
Proof.
  destruct (new_quizzes_for db upcoming_quizzes user) as [|q rest] eqn:Hnew.
  - rewrite (reminder_step_no_new _ _ _ _ _ _ _ Hnew). cbn.
    split; [intros e []|]. intros n [= <-]. unfold transport_calls, len. cbn. lia.
  - assert (new_quizzes_for db upcoming_quizzes user <> []) as Hne
      by (rewrite Hnew; discriminate).
    rewrite (reminder_step_gate _ _ _ _ _ _ _ Hne), Hnew.
    destruct (hour (clock W k) =? resolve_reminder_time (user_pref_of db user)).
    + destruct (dispatch_reminder_spec W today user (user_pref_of db user) (q :: rest)
                  reminders_sent (S k)) as (Hcalls & Hcount).
      split; [|exact Hcount]. intros e Hin Ht. split; [discriminate | auto].
    + cbn. split; [intros e []|]. intros n [= <-]. unfold transport_calls, len. cbn. lia.
Qed.

Lemma for_each_count {A} (body : A -> Z -> M Z) :
  (forall x n k n', outcome (body x n k) = inr n' ->
     n <= n' <= n + 1 /\ n' - n <= transport_calls (calls (body x n k))) ->
  forall l n k n', outcome (for_each l body n k) = inr n' ->
    n <= n' <= n + len l /\ n' - n <= transport_calls (calls (for_each l body n k)).
Proof.
  intros Hbody. induction l as [|x l IH]; intros n k n'; simpl.
  - intros [= <-]. unfold transport_calls, len. cbn. lia.
  - specialize (Hbody x n k). unfold bind, outcome, calls in *.
    destruct (body x n k) as [[[e|n1] k1] ev1]; cbn in *; [discriminate|].
    specialize (IH n1 k1).
    destruct (for_each l body n1 k1) as [[r k2] ev2]; cbn in *.
    intros ->. destruct (Hbody n1 eq_refl) as (Hb1 & Hb2).
    destruct (IH n' eq_refl) as (Hl1 & Hl2).
    rewrite transport_calls_app. unfold len in *. cbn [length]. lia.
Qed.

(** X8. Every mail, webhook post and SMS of a daily run reaches a user
    of role [user] who never logged in or last logged in more than three
    days before the run, and who has an upcoming quiz left to take; a mail
    goes to that user's address, a post to the webhook and an SMS to the
    phone number of that user's own preference row. *)
Theorem daily_job_reaches_only_inactive_users (W : World) (db : DB) (k : nat)
    (e : event) :
  In e (calls (send_daily_reminders W db k)) ->
  transport_call e = true ->
  exists user recent_date,
    minus_days 3 (clock W (S k)) = inr recent_date
    /\ In user (users db) /\ role user = "user"
    /\ inactive_since recent_date user = true
    /\ new_quizzes_for db (upcoming_quizzes_query W db (dt_date (clock W k))) user <> []
    /\ addressed_to user (user_pref_of db user) e.
Proof.
  unfold send_daily_reminders, daily_reminders_block, try_except, bind, datetime_now, lift,
    logger_error_outside_context, raise, ret, calls.
  destruct (minus_days 3 (clock W (S k))) as [x|recent_date] eqn:Hrecent; cbn [snd fst].
  { cbn. intros []. }
  set (upcoming := upcoming_quizzes_query W db (dt_date (clock W k))).
  destruct (for_each (inactive_users_query db recent_date)
              (reminder_step W db (dt_date (clock W k)) upcoming) 0 (S (S k)))
    as [[r k'] ev] eqn:Hloop.
  assert (In e ev -> transport_call e = true ->
          exists user recent_date0,
            inr recent_date = inr recent_date0 (A := exn)
            /\ In user (users db) /\ role user = "user"
            /\ inactive_since recent_date0 user = true
            /\ new_quizzes_for db upcoming user <> []
            /\ addressed_to user (user_pref_of db user) e) as Hev.
  { intros Hin Ht.
    assert (In e (calls (for_each (inactive_users_query db recent_date)
                           (reminder_step W db (dt_date (clock W k)) upcoming) 0 (S (S k)))))
      as Hin' by (rewrite Hloop; exact Hin).
    apply (calls_for_each _ (fun user e =>
             transport_call e = true ->
             new_quizzes_for db upcoming user <> []
             /\ addressed_to user (user_pref_of db user) e)) in Hin'.
    - destruct Hin' as (user & Huser & Hspec). destruct (Hspec Ht) as (Hnew & Haddr).
      unfold inactive_users_query in Huser. apply filter_In in Huser.
      destruct Huser as (Hin_users & Hcond). apply andb_true_iff in Hcond.
      destruct Hcond as (Hrole & Hidle). apply String.eqb_eq in Hrole.
      exists user, recent_date. repeat split; assumption.
    - intros user acc k0 e0 Hin0 Ht0.
      exact (proj1 (reminder_step_spec _ _ _ _ _ _ _) e0 Hin0 Ht0). }
  destruct r as [x|n]; cbn; rewrite app_nil_r; apply Hev.
Qed.

(** At 18:00 on 1 March the first mail of the run goes to Alice, who
    never logged in and still has quiz 2 to take. *)
Lemma daily_job_reaches_only_inactive_users_witness :
  exists m user,
    In (MailSend m)
       (calls (send_daily_reminders (calm_world (at_hour 2024 3 1 18) stable_order)
                 sample_db 0%nat))
    /\ In user (users sample_db) /\ role user = "user"
    /\ recipients m = [username user].
Proof.
  eexists.
  destruct (daily_job_reaches_only_inactive_users
              (calm_world (at_hour 2024 3 1 18) stable_order) sample_db 0%nat _
              (or_introl eq_refl) eq_refl)
    as (user & recent_date & _ & Hin & Hrole & _ & _ & Hrec & _).
  exists user. split; [left; reflexivity|]. repeat split; assumption.
Defined.

(** X9. When a daily run returns, the number in its summary is at least
    0, at most the number of inactive users, and at most the number of
    mails, webhook posts and SMS the run made: nobody is counted without
    a call on a transport. *)
Theorem daily_job_count_is_bounded (W : World) (db : DB) (k : nat) (summary : string) :
  outcome (send_daily_reminders W db k) = inr summary ->
  exists recent_date n,
    minus_days 3 (clock W (S k)) = inr recent_date
    /\ summary = "Daily reminders sent to " ++ pretty n ++ " users"
    /\ 0 <= n <= len (inactive_users_query db recent_date)
    /\ n <= transport_calls (calls (send_daily_reminders W db k)).
Proof.
  unfold send_daily_reminders, daily_reminders_block, try_except, bind, datetime_now, lift,
    logger_error_outside_context, raise, ret, calls, outcome.
  destruct (minus_days 3 (clock W (S k))) as [x|recent_date] eqn:Hrecent; cbn [snd fst];
    [discriminate|].
  set (upcoming := upcoming_quizzes_query W db (dt_date (clock W k))).
  pose proof (for_each_count (reminder_step W db (dt_date (clock W k)) upcoming)
                (fun x n k0 n' => proj2 (reminder_step_spec W db _ upcoming x n k0) n')
                (inactive_users_query db recent_date) 0 (S (S k))) as Hcount.
  unfold outcome, calls in Hcount.
  destruct (for_each (inactive_users_query db recent_date)
              (reminder_step W db (dt_date (clock W k)) upcoming) 0 (S (S k)))
    as [[[x|n] k'] ev]; cbn [snd fst] in *; [discriminate|].
  intros [= <-]. exists recent_date, n. destruct (Hcount n eq_refl) as (Hb & Ht).
  split; [reflexivity|]. split; [reflexivity|].
  cbn [app]. rewrite app_nil_r. lia.
Qed.

(** At 18:00 on 1 March 2024 three inactive users are mailed and counted. *)
Lemma daily_job_count_is_bounded_witness :
  exists n,
    outcome (send_daily_reminders (calm_world (at_hour 2024 3 1 18) stable_order)
               sample_db 0%nat)
    = inr ("Daily reminders sent to " ++ pretty n ++ " users")
    /\ 0 <= n <= 3.
Proof.
  destruct (daily_job_count_is_bounded
              (calm_world (at_hour 2024 3 1 18) stable_order) sample_db 0%nat
              "Daily reminders sent to 3 users" eq_refl)
    as (recent_date & n & Hrecent & Hsummary & Hbound & _).
  exists n. split; [rewrite <- Hsummary; reflexivity|].
  injection Hrecent as <-. exact Hbound.
Defined.

(** ** Failures of the two scheduled jobs *)

(** A handler that fails on [current_app] before it logs: the calls and
    the counter of the block stay, the exception is the handler's. *)
Lemma try_except_outside_context {A} (m : M A) (prefix : string) k :
  try_except m
    (fun x => logger_error_outside_context (prefix ++ exn_msg x) ;;; raise x) k
  = match outcome (m k) with
    | inl _ => (inl working_outside_of_application_context, snd (fst (m k)), calls (m k))
    | inr _ => m k
    end.
Proof.
  unfold try_except, bind, logger_error_outside_context, raise, outcome, calls.
  destruct (m k) as [[[x|a] k1] ev]; cbn; [rewrite app_nil_r|]; reflexivity.
Qed.

Lemma all_mails (l : list event) :
  (forall x, In x l -> exists m, x = MailSend m) -> l = map MailSend (mails l).
Proof.
  induction l as [|x l IH]; intros H; [reflexivity|].
  destruct (H x (or_introl eq_refl)) as (m & ->). cbn. f_equal.
  apply IH. intros y Hy. apply H. right. exact Hy.
Qed.

Lemma monthly_reports_block_mails W db k :
  calls (monthly_reports_block W db k)
  = map MailSend (mails (calls (monthly_reports_block W db k))).
Proof.
  apply all_mails. intros x Hx. unfold monthly_reports_block in Hx.
  apply calls_bind in Hx. destruct Hx as [[] | (t & k1 & _ & Hx)].
  apply calls_bind in Hx. destruct Hx as [[] | ([last_month first_day] & k2 & _ & Hx)].
  apply calls_bind in Hx. destruct Hx as [Hx | (u & k3 & _ & [])].
  apply (calls_for_each _ (fun _ x => exists m, x = MailSend m)) in Hx.
  - destruct Hx as (_ & _ & Hm). exact Hm.
  - intros user acc k' x' Hin. apply report_step_calls in Hin.
    destruct Hin as (m & -> & _). eauto.
Qed.

(** X10. When the block of the daily or of the monthly job fails, the
    job does not log the error and does not raise it again: the handler
    reads [current_app] outside the application context, so the job
    ends with Flask's [RuntimeError] whatever the error was. The calls
    made before the failure stand (a mail already handed over is not
    taken back) and the handler adds none; in the monthly job all the
    calls are mails. A failed job never ends with another exception. *)
Theorem job_failures_end_in_runtime_error (W : World) (db : DB) (k : nat) :
  (forall e, outcome (daily_reminders_block W db k) = inl e ->
     send_daily_reminders W db k
     = (inl working_outside_of_application_context,
        snd (fst (daily_reminders_block W db k)),
        calls (daily_reminders_block W db k)))
  /\ (forall e, outcome (monthly_reports_block W db k) = inl e ->
        send_monthly_reports W db k
        = (inl working_outside_of_application_context,
           snd (fst (monthly_reports_block W db k)),
           calls (monthly_reports_block W db k)))
  /\ (exists sent, calls (send_monthly_reports W db k) = map MailSend sent)
  /\ (forall e, outcome (send_daily_reminders W db k) = inl e
                \/ outcome (send_monthly_reports W db k) = inl e ->
        e = working_outside_of_application_context
        /\ exn_class e = "RuntimeError").
Proof.
  unfold send_daily_reminders, send_monthly_reports.
  rewrite !try_except_outside_context.
  split; [intros e ->; reflexivity|].
  split; [intros e ->; reflexivity|].
  split.
  { exists (mails (calls (monthly_reports_block W db k))).
    destruct (outcome (monthly_reports_block W db k));
      [change (calls (monthly_reports_block W db k)
               = map MailSend (mails (calls (monthly_reports_block W db k))))|];
      apply monthly_reports_block_mails. }
  intros e.
  destruct (outcome (daily_reminders_block W db k)) eqn:Hdaily;
    destruct (outcome (monthly_reports_block W db k)) eqn:Hmonthly;
    intros [H | H]; unfold outcome in *; cbn [fst] in H;
    first [injection H as <-; split; reflexivity | congruence].
Qed.

(** The mail transport refuses the run's third call, the mail to Carol:
    the mail to Alice went out before, no error is logged, and the
    connection error is lost to a [RuntimeError]. *)
Lemma job_failures_end_in_runtime_error_witness :
  outcome (monthly_reports_block
             (with_smtp_failing_at (calm_world (noon 2024 3 1) stable_order) 2)
             sample_db 0%nat) = inl connection_refused
  /\ exists to_alice to_carol,
       send_monthly_reports
         (with_smtp_failing_at (calm_world (noon 2024 3 1) stable_order) 2)
         sample_db 0%nat
       = (inl (Exn "RuntimeError" "Working outside of application context."), 3%nat,
          [MailSend to_alice; MailSend to_carol])
       /\ recipients to_alice = [username alice]
       /\ recipients to_carol = [username carol].
Proof.
  split; [reflexivity|].
  pose proof (proj1 (proj2 (job_failures_end_in_runtime_error
                              (with_smtp_failing_at
                                 (calm_world (noon 2024 3 1) stable_order) 2)
                              sample_db 0%nat)) connection_refused eq_refl) as Hrun.
  eexists. eexists. split; [rewrite Hrun; reflexivity|]. split; reflexivity.
Defined.

(** ** The monthly job on a consistent database *)

Lemma mapE_total {A B} (f : A -> exn + B) (l : list A) :
  (forall x, In x l -> exists y, f x = inr y) -> exists ys, mapE f l = inr ys.
Proof.
  induction l as [|x l IH]; intros H; simpl; [eauto|].
  destruct (H x (or_introl eq_refl)) as (y & ->).
  destruct IH as (ys & ->); [intros z Hz; apply H; right; exact Hz|]. eauto.
Qed.

Lemma mapE_fails {A B} (f : A -> exn + B) (P : exn -> Prop) (l : list A) a :
  (forall x e, f x = inl e -> P e) ->
  In a l -> (exists e, f a = inl e) ->
  exists e, mapE f l = inl e /\ P e.
Proof.
  intros HP. induction l as [|x l IH]; intros Hin Hfail; [destruct Hin|].
  simpl. destruct (f x) as [e|y] eqn:Hx; [exists e; split; [reflexivity | eapply HP, Hx]|].
  destruct Hin as [-> | Hin]; [destruct Hfail as (e & He); congruence|].
  destruct (IH Hin Hfail) as (e & -> & He). eauto.
Qed.

Lemma attempt_detail_of_linked db a :
  well_linked db a = true -> exists d, attempt_detail_of db a = inr d.
Proof.
  unfold well_linked, attempt_detail_of.
  destruct (Quiz_get db (s_quiz_id a)) as [quiz|]; [|discriminate].
  destruct (Chapter_get db (q_chapter_id quiz)) as [chapter|]; [|discriminate].
  destruct (percentage_expr_total a) as (p & ->).
  destruct (Subject_get db (ch_subject_id chapter)); [eauto | discriminate].
Qed.

Lemma attempt_detail_of_dangling db a :
  well_linked db a = false -> exists e, attempt_detail_of db a = inl e.
Proof.
  unfold well_linked, attempt_detail_of.
  destruct (Quiz_get db (s_quiz_id a)) as [quiz|]; [|eauto].
  destruct (Chapter_get db (q_chapter_id quiz)) as [chapter|]; [|eauto].
  destruct (percentage_expr_total a) as (p & ->).
  destruct (Subject_get db (ch_subject_id chapter)); [discriminate | eauto].
Qed.

Lemma attempt_detail_of_error db a e :
  attempt_detail_of db a = inl e -> exn_class e = "AttributeError".
Proof.
  unfold attempt_detail_of.
  destruct (Quiz_get db (s_quiz_id a)) as [quiz|]; [|intros [= <-]; reflexivity].
  destruct (Chapter_get db (q_chapter_id quiz)) as [chapter|]; [|intros [= <-]; reflexivity].
  destruct (percentage_expr_total a) as (p & ->).
  destruct (Subject_get db (ch_subject_id chapter)); [discriminate|].
  intros [= <-]. reflexivity.
Qed.

Lemma user_rankings_of_linked db attempts :
  (forall a, In a attempts -> well_linked db a = true) ->
  forall acc, exists m, user_rankings_of db attempts acc = inr m.
Proof.
  induction attempts as [|a attempts IH]; intros H acc; simpl; [eauto|].
  pose proof (H a (or_introl eq_refl)) as Ha. unfold well_linked in Ha.
  destruct (Quiz_get db (s_quiz_id a)); [|discriminate].
  apply IH. intros b Hb. apply H. right. exact Hb.
Qed.

Lemma monthly_attempts_in_scores db user last_month first_day a :
  In a (monthly_attempts db user last_month first_day) -> In a (scores db).
Proof. unfold monthly_attempts. intros H. apply filter_In in H. tauto. Qed.

(** On a consistent database with a working mail transport, the step of
    a user with attempts hands over one mail to that user. *)
Lemma report_step_consistent W db last_month first_day user k :
  referential_integrity db = true ->
  (forall m, smtp W k m = None) ->
  if active_in db last_month first_day user
  then exists msg,
         recipients msg = [username user]
         /\ report_step W db last_month first_day user tt k
            = (inr tt, S k, [MailSend msg])
  else report_step W db last_month first_day user tt k = (inr tt, k, []).
Proof.
  intros Hint Hsmtp. unfold active_in, report_step.
  destruct (monthly_attempts db user last_month first_day) as [|a attempts] eqn:Hatt;
    cbn [is_empty negb]; [reflexivity|].
  assert (forall b, In b (a :: attempts) -> well_linked db b = true) as Hlinked.
  { intros b Hb. rewrite <- Hatt in Hb. apply monthly_attempts_in_scores in Hb.
    unfold referential_integrity in Hint.
    exact (proj1 (forallb_forall _ _) Hint b Hb). }
  destruct (avg_percentage_of_total db (a :: attempts)) as (avg & Havg);
    [rewrite <- Hatt; apply filter_length_le|].
  destruct (mapE_total (attempt_detail_of db) (a :: attempts)) as (details & Hdetails);
    [intros b Hb; apply attempt_detail_of_linked, Hlinked, Hb|].
  destruct (user_rankings_of_linked db (a :: attempts) Hlinked ∅) as (rankings & Hrank).
  rewrite Havg, Hdetails, Hrank.
  unfold bind, lift, mail_send, call. rewrite Hsmtp. cbn.
  eexists. split; [|reflexivity]. reflexivity.
Qed.

Lemma report_loop_consistent W db last_month first_day (l : list User) :
  referential_integrity db = true ->
  (forall n m, smtp W n m = None) ->
  forall k, exists sent,
    for_each l (report_step W db last_month first_day) tt k
    = (inr tt, (k + length sent)%nat, map MailSend sent)
    /\ map recipients sent
       = map (fun u => [username u]) (List.filter (active_in db last_month first_day) l).
Proof.
  intros Hint Hsmtp. induction l as [|user l IH]; intros k; simpl.
  - exists []. rewrite Nat.add_0_r. split; reflexivity.
  - pose proof (report_step_consistent W db last_month first_day user k Hint (Hsmtp k))
      as Hstep.
    unfold bind. destruct (active_in db last_month first_day user).
    + destruct Hstep as (msg & Hmsg & ->). destruct (IH (S k)) as (sent & -> & Hsent).
      exists (msg :: sent). cbn. rewrite Hmsg, Hsent.
      split; [|reflexivity]. do 2 f_equal. lia.
    + rewrite Hstep. destruct (IH k) as (sent & -> & Hsent).
      exists sent. split; [reflexivity | exact Hsent].
Qed.

(** X11. On a database where the quiz, chapter and subject of every
    attempt exist, and with a mail transport that accepts every mail, a
    monthly run returns, makes no other call than one mail for each user
    of role [user] with an attempt in the previous month, in the order of
    the user table, each to that user's address, and reports the number
    of all users of role [user]. *)
Theorem monthly_job_mails_every_active_user (W : World) (db : DB) (k : nat)
    (last_month first_day : date) :
  referential_integrity db = true ->
  (forall n m, smtp W n m = None) ->
  month_bounds (dt_date (clock W k)) = inr (last_month, first_day) ->
  exists sent,
    send_monthly_reports W db k
    = (inr ("Monthly reports sent to " ++ pretty (len (report_users db)) ++ " users"),
       (S k + length sent)%nat, map MailSend sent)
    /\ map recipients sent
       = map (fun u => [username u])
             (List.filter (active_in db last_month first_day) (report_users db)).
Proof.
  intros Hint Hsmtp Hbounds.
  destruct (report_loop_consistent W db last_month first_day (report_users db)
              Hint Hsmtp (S k)) as (sent & Hloop & Hsent).
  exists sent. split; [|exact Hsent].
  unfold send_monthly_reports, monthly_reports_block, try_except, bind, datetime_now, lift, ret.
  rewrite Hbounds, Hloop. cbn [app]. rewrite app_nil_r. reflexivity.
Qed.

(** The run of 1 March 2024 on the sample database. *)
Lemma monthly_job_mails_every_active_user_witness :
  referential_integrity sample_db = true
  /\ exists sent,
       calls (send_monthly_reports (calm_world (noon 2024 3 1) stable_order)
                sample_db 0%nat) = map MailSend sent
       /\ map recipients sent = [[username alice]; [username carol]].
Proof.
  split; [reflexivity|].
  destruct (monthly_job_mails_every_active_user
              (calm_world (noon 2024 3 1) stable_order) sample_db 0%nat
              (mk_date 2024 2 1) (mk_date 2024 3 1) eq_refl (fun _ _ => eq_refl) eq_refl)
    as (sent & Hrun & Hsent).
  exists sent. rewrite Hrun. split; [reflexivity | exact Hsent].
Defined.

Lemma for_each_app {A S} (body : A -> S -> M S) (l1 l2 : list A) acc k :
  for_each (l1 ++ l2)%list body acc k
  = bind (for_each l1 body acc) (for_each l2 body) k.
Proof.
  revert acc k. induction l1 as [|x l1 IH]; intros acc k; simpl.
  - unfold bind, ret. destruct (for_each l2 body acc k) as [[r k2] ev]. reflexivity.
  - unfold bind. destruct (body x acc k) as [[[e|acc1] k1] ev1]; [reflexivity|].
    rewrite IH. unfold bind.
    destruct (for_each l1 body acc1 k1) as [[[e|acc2] k2] ev2]; [reflexivity|].
    destruct (for_each l2 body acc2 k2) as [[r k3] ev3].
    rewrite app_assoc. reflexivity.
Qed.

Lemma report_step_dangling W db last_month first_day user a k :
  In a (monthly_attempts db user last_month first_day) ->
  well_linked db a = false ->
  exists e, exn_class e = "AttributeError"
            /\ report_step W db last_month first_day user tt k = (inl e, k, []).
Proof.
  intros Hin Hdangling. unfold report_step.
  destruct (monthly_attempts db user last_month first_day) as [|b attempts] eqn:Hatt;
    [destruct Hin|]. cbn [is_empty].
  destruct (avg_percentage_of_total db (b :: attempts)) as (avg & Havg);
    [rewrite <- Hatt; apply filter_length_le|].
  destruct (mapE_fails (attempt_detail_of db) (fun e => exn_class e = "AttributeError")
              (b :: attempts) a (attempt_detail_of_error db) Hin
              (attempt_detail_of_dangling db a Hdangling)) as (e & Hfail & He).
  exists e. split; [exact He|].
  rewrite Havg, Hfail. reflexivity.
Qed.

(** X12. The monthly job does not isolate users from one another: when
    an attempt of the previous month refers to a quiz, chapter or subject
    that does not exist, the block stops at its user with an
    [AttributeError], after the mails of the users before; that user and
    all the users after get no report. The handler then fails in its
    turn: nothing is logged and the job ends with a [RuntimeError]. *)
Theorem monthly_job_aborts_on_dangling_attempt (W : World) (db : DB) (k : nat)
    (last_month first_day : date) (before after : list User) (user : User)
    (a : Score) (k1 : nat) (ev1 : list event) :
  month_bounds (dt_date (clock W k)) = inr (last_month, first_day) ->
  report_users db = (before ++ user :: after)%list ->
  for_each before (report_step W db last_month first_day) tt (S k) = (inr tt, k1, ev1) ->
  In a (monthly_attempts db user last_month first_day) ->
  well_linked db a = false ->
  (exists e,
     exn_class e = "AttributeError"
     /\ monthly_reports_block W db k = (inl e, k1, ev1))
  /\ send_monthly_reports W db k
     = (inl working_outside_of_application_context, k1, ev1).
Proof.
  intros Hbounds Husers Hbefore Hin Hdangling.
  destruct (report_step_dangling W db last_month first_day user a k1 Hin Hdangling)
    as (e & He & Hstep).
  assert (monthly_reports_block W db k = (inl e, k1, ev1)) as Hblock.
  { unfold monthly_reports_block, bind at 1 2 3, datetime_now, lift.
    rewrite Hbounds, Husers, for_each_app. unfold bind at 1. rewrite Hbefore.
    simpl for_each. unfold bind at 1. rewrite Hstep.
    cbn. rewrite app_nil_r. reflexivity. }
  split; [exists e; split; [exact He | exact Hblock]|].
  unfold send_monthly_reports. rewrite try_except_outside_context, Hblock.
  reflexivity.
Qed.

(** Bob's attempt on the missing quiz 99 stops the run after the mail
    to Alice: Carol, who has a sound attempt in February, gets nothing. *)
Lemma monthly_job_aborts_on_dangling_attempt_witness :
  report_users dangling_db = [alice; bob; carol]
  /\ active_in dangling_db (mk_date 2024 2 1) (mk_date 2024 3 1) carol = true
  /\ outcome (monthly_reports_block (calm_world (noon 2024 3 1) stable_order)
                dangling_db 0%nat) = inl (AttributeError "chapter_id")
  /\ exists to_alice,
       send_monthly_reports (calm_world (noon 2024 3 1) stable_order) dangling_db 0%nat
       = (inl (Exn "RuntimeError" "Working outside of application context."), 2%nat,
          [MailSend to_alice])
       /\ recipients to_alice = [username alice].
Proof.
  split; [reflexivity|]. split; [reflexivity|]. split; [reflexivity|].
  pose proof (fun ev1 Hbefore =>
                proj2 (monthly_job_aborts_on_dangling_attempt
                         (calm_world (noon 2024 3 1) stable_order) dangling_db 0%nat
                         (mk_date 2024 2 1) (mk_date 2024 3 1) [alice] [carol] bob
                         (attempt 6 99 2 5 10 (noon 2024 2 12)) 2%nat ev1
                         eq_refl eq_refl Hbefore
                         (or_introl eq_refl) eq_refl)) as Hrun.
  eexists. split; [apply Hrun; reflexivity | reflexivity].
Defined.

(** ** Ranks within a quiz *)

Lemma filter_length_lt {A} (p : A -> bool) (l : list A) x :
  In x l -> p x = false -> (length (List.filter p l) < length l)%nat.
Proof.
  induction l as [|y l IH]; intros Hin Hx; [destruct Hin|]. simpl.
  destruct Hin as [-> | Hin].
  - rewrite Hx. pose proof (filter_length_le p l). lia.
  - specialize (IH Hin Hx). destruct (p y); simpl; lia.
Qed.

Lemma filter_length_mono {A} (p q : A -> bool) (l : list A) :
  (forall x, p x = true -> q x = true) ->
  (length (List.filter p l) <= length (List.filter q l))%nat.
Proof.
  intros Hpq. induction l as [|x l IH]; simpl; [lia|].
  destruct (p x) eqn:Hp.
  - rewrite (Hpq x Hp). simpl. lia.
  - destruct (q x); simpl; lia.
Qed.

Lemma rank_by_quiz_scores db quiz_id s :
  rank_for_attempt db quiz_id s = 1 + len (List.filter (Z.ltb s) (quiz_scores db quiz_id)).
Proof.
  unfold rank_for_attempt. rewrite higher_scores_len.
  pose proof (len_nonneg (List.filter (Z.ltb s) (quiz_scores db quiz_id))).
  rewrite or_int_positive; lia.
Qed.

Lemma total_by_quiz_scores db quiz_id :
  total_attempts_for_quiz db quiz_id = len (quiz_scores db quiz_id).
Proof. unfold total_attempts_for_quiz, quiz_scores, len. rewrite length_map. reflexivity. Qed.

(** X13. For an attempt that is in the Score table, the rank reported is
    at least 1 and at most the number of attempts on its quiz; on one
    quiz a higher score never gets a worse rank; and an attempt that no
    attempt on the quiz beats has rank 1. *)
Theorem rank_within_total_and_monotone (db : DB) (a : Score) (s s' : Z) :
  In a (scores db) ->
  1 <= rank_for_attempt db (s_quiz_id a) (score a)
    <= total_attempts_for_quiz db (s_quiz_id a)
  /\ (s <= s' ->
        rank_for_attempt db (s_quiz_id a) s' <= rank_for_attempt db (s_quiz_id a) s)
  /\ ((forall r, In r (scores db) -> s_quiz_id r = s_quiz_id a -> score r <= score a) ->
        rank_for_attempt db (s_quiz_id a) (score a) = 1).
Proof.
  intros Hin. rewrite !rank_by_quiz_scores, total_by_quiz_scores. unfold len.
  assert (In (score a) (quiz_scores db (s_quiz_id a))) as Hscore.
  { unfold quiz_scores. apply in_map, filter_In. split; [exact Hin | apply Z.eqb_refl]. }
  split; [|split].
  - pose proof (filter_length_lt (Z.ltb (score a)) _ _ Hscore (Z.ltb_irrefl _)). lia.
  - intros Hle.
    pose proof (filter_length_mono (Z.ltb s') (Z.ltb s) (quiz_scores db (s_quiz_id a))) as H.
    assert (forall x, (s' <? x) = true -> (s <? x) = true) as Himp
      by (intros x Hx; apply Z.ltb_lt in Hx; apply Z.ltb_lt; lia).
    specialize (H Himp). lia.
  - intros Hbest. rewrite filter_nil_all; [reflexivity|].
    intros x Hx. unfold quiz_scores in Hx. apply in_map_iff in Hx.
    destruct Hx as (r & <- & Hr). apply filter_In in Hr. destruct Hr as (Hr & Hq).
    apply Z.eqb_eq in Hq. apply Z.ltb_ge. apply Hbest; assumption.
Qed.

(** The attempt with 10 out of 10 on quiz 1 is the first of three. *)
Lemma rank_within_total_and_monotone_witness :
  rank_for_attempt sample_db 1 10 = 1
  /\ total_attempts_for_quiz sample_db 1 = 3
  /\ rank_for_attempt sample_db 1 10 <= rank_for_attempt sample_db 1 8.
Proof.
  pose proof (rank_within_total_and_monotone sample_db
                (attempt 1 1 1 10 10 (noon 2024 2 10)) 8 10 (or_introl eq_refl))
    as (_ & Hmono & _).
  split; [reflexivity|]. split; [reflexivity|]. apply Hmono. lia.
Defined.

(** ** The rankings of a report *)

Lemma user_rankings_of_spec db attempts :
  forall acc m,
    user_rankings_of db attempts acc = inr m ->
    (forall t r, m !! t = Some r ->
       acc !! t = Some r
       \/ exists a quiz, In a attempts /\ Quiz_get db (s_quiz_id a) = Some quiz
                         /\ title quiz = t /\ r = ranking_of db a)
    /\ (forall t, is_Some (acc !! t) -> is_Some (m !! t))
    /\ (forall a quiz, In a attempts -> Quiz_get db (s_quiz_id a) = Some quiz ->
          is_Some (m !! title quiz))
    /\ (size m <= size acc + length attempts)%nat.
Proof.
  induction attempts as [|a attempts IH]; intros acc m; simpl.
  - intros [= <-]. split; [auto|]. split; [auto|]. split; [intros ? ? []|]. lia.
  - destruct (Quiz_get db (s_quiz_id a)) as [quiz|] eqn:Hquiz; [|discriminate].
    intros Hrun. destruct (IH _ _ Hrun) as (Hfrom & Hkeep & Hkeys & Hsize).
    split; [|split; [|split]].
    + intros t r Hr. destruct (Hfrom t r Hr) as [Hacc | (b & q & Hb & Hq & Ht & Hrb)].
      * apply lookup_insert_Some in Hacc. destruct Hacc as [(Ht & <-) | (_ & Hacc)].
        -- right. exists a, quiz. repeat split; auto.
        -- left. exact Hacc.
      * right. exists b, q. repeat split; auto.
    + intros t Hsome. apply Hkeep. apply lookup_insert_is_Some.
      destruct (decide (title quiz = t)); auto.
    + intros b q [<- | Hb] Hq.
      * rewrite Hquiz in Hq. injection Hq as <-. apply Hkeep.
        apply lookup_insert_is_Some. left. reflexivity.
      * eapply Hkeys; eassumption.
    + rewrite map_size_insert in Hsize.
      destruct (acc !! title quiz); simpl in Hsize; lia.
Qed.

(** X14. The rankings of a monthly report are keyed by quiz title: every
    entry is the rank and attempt count of one of the user's attempts of
    the month on a quiz of that title, every such attempt has its title
    among the keys, there are at most as many entries as attempts, and
    the entry under the title of the last attempt is that attempt's
    (two attempts on one quiz, or on two quizzes of one title, share an
    entry, and the later one wins). *)
Theorem user_rankings_keyed_by_title (db : DB) (attempts : list Score)
    (m : gmap string ranking) :
  user_rankings_of db attempts ∅ = inr m ->
  (forall t r, m !! t = Some r ->
     exists a quiz, In a attempts /\ Quiz_get db (s_quiz_id a) = Some quiz
                    /\ title quiz = t /\ r = ranking_of db a)
  /\ (forall a quiz, In a attempts -> Quiz_get db (s_quiz_id a) = Some quiz ->
        is_Some (m !! title quiz))
  /\ (size m <= length attempts)%nat
  /\ (forall front a quiz, attempts = (front ++ [a])%list ->
        Quiz_get db (s_quiz_id a) = Some quiz ->
        m !! title quiz = Some (ranking_of db a)).
Proof.
  intros Hrun. destruct (user_rankings_of_spec db attempts ∅ m Hrun)
    as (Hfrom & _ & Hkeys & Hsize).
  split; [|split; [exact Hkeys|split]].
  - intros t r Hr. destruct (Hfrom t r Hr) as [Hempty | H]; [|exact H].
    rewrite lookup_empty in Hempty. discriminate.
  - rewrite map_size_empty in Hsize. exact Hsize.
  - intros front a quiz -> Hquiz.
    exact (user_rankings_of_last db front a quiz ∅ m Hquiz Hrun).
Qed.

(** Alice's attempts of February 2024, on quiz 1 and then on quiz 3. *)
Lemma user_rankings_keyed_by_title_witness :
  exists m,
    user_rankings_of sample_db
      (monthly_attempts sample_db alice (mk_date 2024 2 1) (mk_date 2024 3 1)) ∅ = inr m
    /\ m !! "Quiz C" = Some {| rank := 2; total := 2 |}
    /\ size m = 2%nat.
Proof.
  eexists. split; [reflexivity|].
  split.
  - exact (proj2 (proj2 (proj2 (user_rankings_keyed_by_title sample_db
             (monthly_attempts sample_db alice (mk_date 2024 2 1) (mk_date 2024 3 1))
             _ eq_refl)))
             [attempt 1 1 1 10 10 (noon 2024 2 10)] (attempt 2 3 1 4 0 (noon 2024 2 11))
             quiz_old eq_refl eq_refl).
  - reflexivity.
Defined.

(** ** A successful export *)

Lemma mapE_length {A B} (f : A -> exn + B) (l : list A) ys :
  mapE f l = inr ys ->
  length ys = length l /\ forall y, In y ys -> exists x, In x l /\ f x = inr y.
Proof.
  revert ys. induction l as [|x l IH]; intros ys; simpl.
  - intros [= <-]. split; [reflexivity | intros y []].
  - destruct (f x) as [e|y] eqn:Hx; [discriminate|].
    destruct (mapE f l) as [e|ys'] eqn:Hl; [discriminate|].
    intros [= <-]. destruct (IH ys' eq_refl) as (Hlen & Hall).
    split; [simpl; lia|]. intros z [<- | Hz]; [eauto|].
    destruct (Hall z Hz) as (x' & Hx' & Hfx). eauto.
Qed.

Lemma export_row_linked db a :
  well_linked db a = true -> exists row, export_row db a = inr row.
Proof.
  unfold well_linked, export_row.
  destruct (Quiz_get db (s_quiz_id a)) as [quiz|]; [|discriminate].
  destruct (Chapter_get db (q_chapter_id quiz)) as [chapter|]; [|discriminate].
  destruct (percentage_expr_total a) as (p & ->).
  destruct (Subject_get db (ch_subject_id chapter)); [eauto | discriminate].
Qed.

Lemma export_row_length db a row :
  export_row db a = inr row -> length row = length export_header.
Proof.
  unfold export_row.
  destruct (Quiz_get db (s_quiz_id a)) as [quiz|]; [|discriminate].
  destruct (Chapter_get db (q_chapter_id quiz)) as [chapter|]; [|discriminate].
  destruct (percentage_expr (score a) (total_questions a)) as [e|p]; [discriminate|].
  destruct (Subject_get db (ch_subject_id chapter)) as [subject|]; [|discriminate].
  intros [= <-]. reflexivity.
Qed.

(** X15. When the user exists, the quiz, chapter and subject of each of
    the user's attempts exist and the file system accepts the file, the
    export returns the descriptor of the file
    [user_<id>_attempts_<YYYYmmdd_HHMMSS>.csv] under [/tmp], stamped with
    the time read after the rows were built, and writes that file once:
    the header, then one row of ten cells for each attempt of the user. *)
Theorem export_writes_header_and_all_attempts (W : World) (db : DB) (user_id : Z)
    (user : User) (k : nat) :
  User_get db user_id = Some user ->
  (forall a, In a (user_attempts db user_id) -> well_linked db a = true) ->
  (forall n path, fs_open W n path = None) ->
  (forall n path, fs_write W n path = None) ->
  exists rows,
    mapE (export_row db) (user_attempts db user_id) = inr rows
    /\ length rows = length (user_attempts db user_id)
    /\ (forall row, In row rows -> length row = length export_header)
    /\ export_user_attempts_csv W db user_id k
       = let name := "user_" ++ pretty user_id ++ "_attempts_"
                     ++ strftime_stamp (clock W k) ++ ".csv" in
         (inr {| filename := name; filepath := "/tmp/" ++ name;
                 download_url := "/api/user/export/download/" ++ name |},
          S (S (S k)),
          [FileOpenW ("/tmp/" ++ name); FileWrite ("/tmp/" ++ name) (export_header :: rows)]).
Proof.
  intros Huser Hlinked Hopen Hwrite.
  destruct (mapE_total (export_row db) (user_attempts db user_id)) as (rows & Hrows);
    [intros a Ha; apply export_row_linked, Hlinked, Ha|].
  exists rows. destruct (mapE_length _ _ _ Hrows) as (Hlen & Hfrom).
  split; [exact Hrows|]. split; [exact Hlen|].
  split.
  { intros row Hrow. destruct (Hfrom row Hrow) as (a & _ & Ha).
    apply (export_row_length db a row Ha). }
  unfold export_user_attempts_csv. rewrite Huser, Hrows.
  unfold try_except, bind, lift, datetime_now, call, ret. cbv zeta.
  rewrite Hopen, Hwrite. reflexivity.
Qed.

(** Alice's export at noon on 1 March 2024 holds her two attempts. *)
Lemma export_writes_header_and_all_attempts_witness :
  exists rows,
    length rows = 2%nat
    /\ export_user_attempts_csv (calm_world (noon 2024 3 1) stable_order) sample_db 1 0%nat
       = (inr {| filename := "user_1_attempts_20240301_120000.csv";
                 filepath := "/tmp/user_1_attempts_20240301_120000.csv";
                 download_url :=
                   "/api/user/export/download/user_1_attempts_20240301_120000.csv" |},
          3%nat,
          [FileOpenW "/tmp/user_1_attempts_20240301_120000.csv";
           FileWrite "/tmp/user_1_attempts_20240301_120000.csv" (export_header :: rows)]).
Proof.
  destruct (export_writes_header_and_all_attempts
              (calm_world (noon 2024 3 1) stable_order) sample_db 1 alice 0%nat eq_refl)
    as (rows & _ & Hlen & _ & Hrun).
  - intros a [<- | [<- | []]]; reflexivity.
  - reflexivity.
  - reflexivity.
  - exists rows. split; [exact Hlen | exact Hrun].
Defined.

(** X16. A row of the export has as many cells as the header; its first
    cell is the quiz id of the attempt, its score and total cells are the
    attempt's; and an attempt whose total is 0 (or less) is shown with
    the percentage 0 and the verdict Fail, whatever its score. *)
Theorem export_row_matches_header (db : DB) (a : Score) (row : list cell) :
  export_row db a = inr row ->
  length row = length export_header
  /\ nth_error row 0 = Some (CInt (s_quiz_id a))
  /\ nth_error row 6 = Some (CInt (score a))
  /\ nth_error row 7 = Some (CInt (total_questions a))
  /\ (total_questions a <= 0 ->
        nth_error row 8 = Some (CPercent (PInt 0))
        /\ nth_error row 9 = Some (CStr "Fail")).
Proof.
  unfold export_row, Quiz_get.
  destruct (find (fun q => q_id q =? s_quiz_id a) (quizzes db)) as [quiz|] eqn:Hquiz;
    [|discriminate].
  apply find_some in Hquiz. destruct Hquiz as (_ & Hid). apply Z.eqb_eq in Hid.
  destruct (Chapter_get db (q_chapter_id quiz)) as [chapter|]; [|discriminate].
  destruct (percentage_expr (score a) (total_questions a)) as [e|p] eqn:Hp; [discriminate|].
  destruct (Subject_get db (ch_subject_id chapter)) as [subject|]; [|discriminate].
  intros [= <-]. rewrite Hid.
  split; [reflexivity|]. split; [reflexivity|]. split; [reflexivity|].
  split; [reflexivity|].
  intros Hzero. unfold percentage_expr in Hp.
  destruct (Z.ltb_spec 0 (total_questions a)); [lia|].
  injection Hp as <-. split; reflexivity.
Qed.

(** Alice's attempt with 4 points on a quiz of 0 questions. *)
Lemma export_row_matches_header_witness :
  exists row,
    export_row sample_db (attempt 2 3 1 4 0 (noon 2024 2 11)) = inr row
    /\ length row = 10%nat
    /\ nth_error row 9 = Some (CStr "Fail").
Proof.
  eexists. split; [reflexivity|].
  destruct (export_row_matches_header sample_db (attempt 2 3 1 4 0 (noon 2024 2 11)) _
              eq_refl) as (Hlen & _ & _ & _ & Hzero).
  split; [exact Hlen|]. apply Hzero. apply Z.leb_le. vm_compute. reflexivity.
Defined.

(** ** Start-up and the jobs *)

Lemma find_app_none {A} (p : A -> bool) (l l' : list A) :
  find p l = None -> find p (l ++ l')%list = find p l'.
Proof.
  induction l as [|x l IH]; simpl; [reflexivity|].
  destruct (p x); [discriminate | exact IH].
Qed.

(** X17. Seeding the administrator at start-up is idempotent: after one
    start-up a user named [admin@quizmaster.com] exists, every earlier
    user is still there, and a second start-up, whatever key the engine
    would offer, changes nothing and logs nothing. *)
Theorem create_app_admin_idempotent (new_id new_id' : Z) (db : DB) :
  create_app_admin new_id' (fst (create_app_admin new_id db))
  = (fst (create_app_admin new_id db), [])
  /\ (exists u, In u (users (fst (create_app_admin new_id db)))
                /\ username u = ADMIN_USERNAME)
  /\ (forall u, In u (users db) -> In u (users (fst (create_app_admin new_id db))))
  /\ ((exists u, In u (users db) /\ username u = ADMIN_USERNAME) ->
        create_app_admin new_id db = (db, [])).
Proof.
  unfold create_app_admin.
  destruct (find (fun u => String.eqb (username u) ADMIN_USERNAME) (users db))
    as [admin|] eqn:Hfind; cbn [fst].
  - rewrite Hfind. split; [reflexivity|].
    apply find_some in Hfind. destruct Hfind as (Hin & Hname).
    apply String.eqb_eq in Hname.
    split; [eauto|]. split; [auto | reflexivity].
  - cbn [users]. rewrite (find_app_none _ _ _ Hfind). cbn.
    split; [reflexivity|].
    split; [exists (administrator new_id); split; [apply in_or_app; right; left|];
            reflexivity|].
    split; [intros u Hu; apply in_or_app; left; exact Hu|].
    intros (u & Hu & Hname). exfalso.
    pose proof (find_none _ _ Hfind u Hu) as Hnot. cbn in Hnot.
    rewrite Hname in Hnot. discriminate.
Qed.

(** The sample database has an administrator; a database without users
    gets one, once. *)
Lemma create_app_admin_idempotent_witness :
  create_app_admin 9 sample_db = (sample_db, [])
  /\ snd (create_app_admin 1 (sample_db_with_users [])) = ["Admin user created"]
  /\ create_app_admin 2 (fst (create_app_admin 1 (sample_db_with_users [])))
     = (fst (create_app_admin 1 (sample_db_with_users [])), []).
Proof.
  split.
  - apply (create_app_admin_idempotent 9 9 sample_db).
    exists root. split; [right; right; left|]; reflexivity.
  - split; [reflexivity|].
    apply (create_app_admin_idempotent 1 2 (sample_db_with_users [])).
Defined.

Lemma filter_andb {A} (p q : A -> bool) (l : list A) :
  List.filter (fun x => p x && q x) l = List.filter q (List.filter p l).
Proof.
  induction l as [|x l IH]; simpl; [reflexivity|].
  destruct (p x); simpl; [destruct (q x); rewrite IH; reflexivity | exact IH].
Qed.

Section OtherRoles.

Variables (W : World) (db db' : DB).
Hypothesis Hsame_users : report_users db = report_users db'.
Hypothesis Hsubjects : subjects db = subjects db'.
Hypothesis Hchapters : chapters db = chapters db'.
Hypothesis Hquizzes : quizzes db = quizzes db'.
Hypothesis Hscores : scores db = scores db'.
Hypothesis Hprefs : user_preferences db = user_preferences db'.

Lemma inactive_users_by_role recent_date :
  inactive_users_query db recent_date = inactive_users_query db' recent_date.
Proof using Hsame_users.
  unfold inactive_users_query. rewrite !filter_andb.
  change (List.filter (fun u => String.eqb (role u) "user") (users db))
    with (report_users db).
  change (List.filter (fun u => String.eqb (role u) "user") (users db'))
    with (report_users db').
  rewrite Hsame_users. reflexivity.
Qed.

Lemma reminder_step_by_tables today upcoming_quizzes user reminders_sent k :
  reminder_step W db today upcoming_quizzes user reminders_sent k
  = reminder_step W db' today upcoming_quizzes user reminders_sent k.
Proof using Hscores Hprefs.
  unfold reminder_step, new_quizzes_for, user_pref_of. rewrite Hscores, Hprefs.
  reflexivity.
Qed.

Lemma send_daily_reminders_by_role k :
  send_daily_reminders W db k = send_daily_reminders W db' k.
Proof using Hsame_users Hquizzes Hscores Hprefs.
  unfold send_daily_reminders. apply try_except_cong.
  apply bind_cong; [reflexivity|]. intros t k1. cbv zeta.
  apply bind_cong; [reflexivity|]. intros now k2.
  apply bind_cong; [reflexivity|]. intros recent_date k3.
  apply bind_cong; [|reflexivity].
  rewrite inactive_users_by_role.
  replace (upcoming_quizzes_query W db' (dt_date t))
    with (upcoming_quizzes_query W db (dt_date t))
    by (unfold upcoming_quizzes_query; rewrite Hquizzes; reflexivity).
  apply for_each_cong. intros. apply reminder_step_by_tables.
Qed.

Lemma user_rankings_of_by_tables attempts acc :
  user_rankings_of db attempts acc = user_rankings_of db' attempts acc.
Proof using Hquizzes Hscores.
  revert acc. induction attempts as [|a attempts IH]; intros acc; simpl; [reflexivity|].
  unfold Quiz_get, rank_for_attempt, higher_scores, total_attempts_for_quiz.
  rewrite Hquizzes, Hscores.
  destruct (find _ (quizzes db')); [apply IH | reflexivity].
Qed.

Lemma report_step_by_tables last_month first_day user acc k :
  report_step W db last_month first_day user acc k
  = report_step W db' last_month first_day user acc k.
Proof using Hsubjects Hchapters Hquizzes Hscores.
  unfold report_step.
  replace (monthly_attempts db' user last_month first_day)
    with (monthly_attempts db user last_month first_day)
    by (unfold monthly_attempts; rewrite Hscores; reflexivity).
  destruct (is_empty _); [reflexivity|].
  apply bind_cong; [reflexivity|]. intros avg k1.
  apply bind_cong.
  { unfold lift. f_equal. f_equal. apply mapE_cong. intros a.
    unfold attempt_detail_of, Quiz_get, Chapter_get, Subject_get.
    rewrite Hquizzes, Hchapters, Hsubjects. reflexivity. }
  intros details k2.
  apply bind_cong; [|reflexivity].
  unfold lift. rewrite user_rankings_of_by_tables. reflexivity.
Qed.

Lemma send_monthly_reports_by_role k :
  send_monthly_reports W db k = send_monthly_reports W db' k.
Proof using Hsame_users Hsubjects Hchapters Hquizzes Hscores.
  unfold send_monthly_reports. apply try_except_cong.
  apply bind_cong; [reflexivity|]. intros t k1. cbv zeta.
  apply bind_cong; [reflexivity|]. intros [last_month first_day] k2.
  rewrite Hsame_users.
  apply bind_cong; [|reflexivity].
  apply for_each_cong. intros. apply report_step_by_tables.
Qed.

End OtherRoles.

(** X18. The two scheduled jobs see the user table only through its rows
    of role [user]: two states with the same such rows, in the same
    order, and the same other tables make both jobs run identically. In
    particular the administrator seeded at start-up changes nothing in
    what either job does. *)
Theorem jobs_see_only_role_user_rows (W : World) (db db' : DB) (new_id : Z) (k : nat) :
  (report_users db = report_users db' ->
   subjects db = subjects db' -> chapters db = chapters db' ->
   quizzes db = quizzes db' -> scores db = scores db' ->
   user_preferences db = user_preferences db' ->
   send_daily_reminders W db k = send_daily_reminders W db' k
   /\ send_monthly_reports W db k = send_monthly_reports W db' k)
  /\ send_daily_reminders W (fst (create_app_admin new_id db)) k
     = send_daily_reminders W db k
  /\ send_monthly_reports W (fst (create_app_admin new_id db)) k
     = send_monthly_reports W db k.
Proof.
  split.
  { intros Husers Hsub Hch Hq Hs Hp. split.
    - apply send_daily_reminders_by_role; assumption.
    - apply send_monthly_reports_by_role; assumption. }
  assert (report_users (fst (create_app_admin new_id db)) = report_users db) as Husers.
  { unfold create_app_admin, report_users.
    destruct (find _ (users db)); cbn [fst users]; [reflexivity|].
    rewrite List.filter_app. cbn. apply app_nil_r. }
  assert (subjects (fst (create_app_admin new_id db)) = subjects db
          /\ chapters (fst (create_app_admin new_id db)) = chapters db
          /\ quizzes (fst (create_app_admin new_id db)) = quizzes db
          /\ scores (fst (create_app_admin new_id db)) = scores db
          /\ user_preferences (fst (create_app_admin new_id db)) = user_preferences db)
    as (Hsub & Hch & Hq & Hs & Hp).
  { unfold create_app_admin. destruct (find _ (users db)); cbn; repeat split. }
  split.
  - apply send_daily_reminders_by_role; assumption.
  - apply send_monthly_reports_by_role; assumption.
Qed.

(** Without users the seeded administrator is the only row; the daily
    job still contacts nobody. *)
Lemma jobs_see_only_role_user_rows_witness :
  users (fst (create_app_admin 1 (sample_db_with_users []))) = [administrator 1]
  /\ send_daily_reminders (calm_world (at_hour 2024 3 1 18) stable_order)
       (fst (create_app_admin 1 (sample_db_with_users []))) 0%nat
     = (inr "Daily reminders sent to 0 users", 2%nat, []).
Proof.
  split; [reflexivity|].
  rewrite (proj1 (proj2 (jobs_see_only_role_user_rows
                           (calm_world (at_hour 2024 3 1 18) stable_order)
                           (sample_db_with_users []) (sample_db_with_users []) 1 0%nat))).
  reflexivity.
Defined.

(** ** The five earliest quizzes *)

Lemma sorted_app_le {A} (R : A -> A -> Prop) (l1 l2 : list A) :
  StronglySorted R (l1 ++ l2)%list -> forall x y, In x l1 -> In y l2 -> R x y.
Proof.
  induction l1 as [|a l1 IH]; intros Hsorted x y Hx Hy; [destruct Hx|].
  simpl in Hsorted. inversion Hsorted as [|? ? Hrest Hall]; subst.
  destruct Hx as [<- | Hx].
  - apply (proj1 (List.Forall_forall _ _) Hall). apply in_or_app. right. exact Hy.
  - apply IH; assumption.
Qed.

(** X19. With an engine that orders by date, the candidates of the daily
    job are the earliest eligible quizzes: there are five of them, or all
    the eligible ones when these are fewer, and an eligible quiz that was
    left out is dated no earlier than any candidate. With at most five
    eligible quizzes none is left out. *)
Theorem upcoming_quizzes_are_the_earliest (W : World) (db : DB) (today : date) :
  engine_sorts W ->
  length (upcoming_quizzes_query W db today)
  = Nat.min 5 (length (eligible_quizzes db today))
  /\ (forall q, In q (eligible_quizzes db today) ->
        In q (upcoming_quizzes_query W db today)
        \/ forall q', In q' (upcoming_quizzes_query W db today) -> date_of_quiz_le q' q)
  /\ ((length (eligible_quizzes db today) <= 5)%nat ->
        Permutation (eligible_quizzes db today) (upcoming_quizzes_query W db today)).
Proof.
  intros Hengine. unfold upcoming_quizzes_query.
  change (List.filter (fun q => is_active q && date_leb today (date_of_quiz q)) (quizzes db))
    with (eligible_quizzes db today).
  destruct (Hengine (eligible_quizzes db today)) as (Hperm & Hsorted).
  set (sorted := order_by_date_of_quiz W (eligible_quizzes db today)) in *.
  pose proof (Permutation_length Hperm) as Hlen.
  split; [rewrite length_firstn, Hlen; reflexivity|].
  split.
  - intros q Hq. apply (Permutation_in _ Hperm) in Hq.
    rewrite <- (firstn_skipn 5 sorted) in Hq, Hsorted.
    apply in_app_or in Hq. destruct Hq as [Hq | Hq]; [left; exact Hq|].
    right. intros q' Hq'. exact (sorted_app_le _ _ _ Hsorted q' q Hq' Hq).
  - intros Hfew. rewrite firstn_all2 by lia. exact Hperm.
Qed.

(** All three quizzes of the sample database are eligible on 1 January
    2024, and all three are candidates. *)
Lemma upcoming_quizzes_are_the_earliest_witness :
  eligible_quizzes sample_db (mk_date 2024 1 1) = [quiz_a; quiz_b; quiz_old]
  /\ Permutation [quiz_a; quiz_b; quiz_old]
       (upcoming_quizzes_query (calm_world (noon 2024 1 1) stable_order) sample_db
          (mk_date 2024 1 1)).
Proof.
  split; [reflexivity|].
  refine (proj2 (proj2 (upcoming_quizzes_are_the_earliest
                          (calm_world (noon 2024 1 1) stable_order) sample_db
                          (mk_date 2024 1 1) (stable_order_sorts _))) _).
  cbn. lia.
Defined.
